(** * CameraBounds: a camera limiter for a CesiumJS viewer

    Shallow embedding of [src/CameraBounds.js].  The class keeps a
    CesiumJS camera inside a bounding box or near an entity: before every
    rendered frame a predicate is evaluated; if it reports a violation the
    camera is put back to the pose recorded on the last frame on which the
    predicate did not report one.

    The engine (CesiumJS) is not part of the repository.  Its state, as far
    as the class reads or writes it, is the record [Viewer]; its code, as far
    as the class calls it, is the record [Engine] (ellipsoid projection and
    [camera.setView]) together with the small library functions whose
    meaning is fixed by the library: [Cartesian3.distance],
    [Cartesian3.clone], [Math.toDegrees], and adding and removing a listener
    of an [Event]. *)

From Stdlib Require Import Floats Reals Lra.
From stdpp Require Import gmap strings list.

(** ** JavaScript numbers

    The class compares numbers and hands them to the engine.  The
    operations are collected in a class so that the same
    definitions run on IEEE doubles ([float], what a JavaScript engine
    computes with) and can be read over the reals, where surface distances
    of the reference ellipsoid are defined. *)

Class JSNumber (N : Type) := {
  num_add : N -> N -> N;
  num_sub : N -> N -> N;
  num_mul : N -> N -> N;
  num_sqrt : N -> N;
  (** [a < b] *)
  num_lt : N -> N -> bool;
  (** [a <= b] *)
  num_le : N -> N -> bool;
  (** [Cesium.Math.DEGREES_PER_RADIAN], that is [180.0 / Math.PI] *)
  DEGREES_PER_RADIAN : N
}.

(** JavaScript evaluates [a > b] as [b < a] and [a >= b] as [b <= a]; with a
    NaN operand all four are false. *)
Definition num_gt {N : Type} `{JSNumber N} (a b : N) : bool := num_lt b a.
Definition num_ge {N : Type} `{JSNumber N} (a b : N) : bool := num_le b a.

(** What a strict comparison excludes; it holds of doubles and of reals. *)
Definition StrictExcludes (N : Type) `{JSNumber N} : Prop :=
  forall a b : N, num_lt a b = true -> num_le b a = false.

#[export] Instance float_JSNumber : JSNumber float := {
  num_add := PrimFloat.add;
  num_sub := PrimFloat.sub;
  num_mul := PrimFloat.mul;
  num_sqrt := PrimFloat.sqrt;
  num_lt := PrimFloat.ltb;
  num_le := PrimFloat.leb;
  DEGREES_PER_RADIAN := (180 / 0x1.921fb54442d18p+1)%float
}.

Definition Rltb (a b : R) : bool := if Rlt_dec a b then true else false.
Definition Rleb (a b : R) : bool := if Rle_dec a b then true else false.

#[export] Instance real_JSNumber : JSNumber R := {
  num_add := Rplus;
  num_sub := Rminus;
  num_mul := Rmult;
  num_sqrt := sqrt;
  num_lt := Rltb;
  num_le := Rleb;
  DEGREES_PER_RADIAN := (180 / PI)%R
}.

(** ** Engine values *)

(** [Cesium.Cartesian3] *)
Record Cartesian3 (N : Type) := mkCartesian3 { x : N; y : N; z : N }.
Arguments mkCartesian3 {N} _ _ _.
Arguments x {N} _.
Arguments y {N} _.
Arguments z {N} _.

(** [Cesium.Cartographic]: longitude and latitude in radians, height in
    metres above the ellipsoid. *)
Record Cartographic (N : Type) :=
  mkCartographic { longitude : N; latitude : N; height : N }.
Arguments mkCartographic {N} _ _ _.
Arguments longitude {N} _.
Arguments latitude {N} _.
Arguments height {N} _.

(** The object literal [{heading, pitch, roll}] (radians). *)
Record Orientation (N : Type) :=
  mkOrientation { heading : N; pitch : N; roll : N }.
Arguments mkOrientation {N} _ _ _.
Arguments heading {N} _.
Arguments pitch {N} _.
Arguments roll {N} _.

(** What an observer reads from the camera at one instant. *)
Record CameraView (N : Type) := mkCameraView {
  view_position : Cartesian3 N;
  view_positionCartographic : Cartographic N;
  view_orientation : Orientation N
}.
Arguments mkCameraView {N} _ _ _.
Arguments view_position {N} _.
Arguments view_positionCartographic {N} _.
Arguments view_orientation {N} _.

(** [viewer.scene.globe.ellipsoid].  Both methods return [undefined] for a
    point at the centre of the ellipsoid.  The second argument of
    [scaleToGeodeticSurface] is the object the result is written to. *)
Record Ellipsoid (N : Type) := mkEllipsoid {
  cartesianToCartographic : Cartesian3 N -> option (Cartographic N);
  scaleToGeodeticSurface :
    Cartesian3 N -> option (Cartographic N) -> option (Cartesian3 N)
}.
Arguments mkEllipsoid {N} _ _.
Arguments cartesianToCartographic {N} _ _.
Arguments scaleToGeodeticSurface {N} _ _ _.

(** The engine code the class calls.  [scene_globe] is [None] for a viewer
    created without a globe.  [setView] receives what the camera shows and
    the [destination] and [orientation] options ([None] for [null] or
    [undefined]) and returns what the camera shows afterwards. *)
Record Engine (N : Type) := mkEngine {
  scene_globe : option (Ellipsoid N);
  setView :
    CameraView N -> option (Cartesian3 N) -> option (Orientation N) ->
    CameraView N
}.
Arguments mkEngine {N} _ _.
Arguments scene_globe {N} _.
Arguments setView {N} _ _ _ _.

(** The contract of [camera.setView] the specification relies on: with a
    destination and an orientation given, the camera shows exactly them
    once the call returns. *)
Definition setView_snaps {N} (E : Engine N) : Prop :=
  forall v dest orient,
    view_position (setView E v (Some dest) (Some orient)) = dest /\
    view_orientation (setView E v (Some dest) (Some orient)) = orient.

(** [Cesium.Cartesian3.distance(left, right)]: the magnitude of the
    difference, [Math.sqrt(dx * dx + dy * dy + dz * dz)]. *)
Definition Cartesian3_distance {N : Type} `{JSNumber N} (left right : Cartesian3 N) : N :=
  let dx := num_sub (x left) (x right) in
  let dy := num_sub (y left) (y right) in
  let dz := num_sub (z left) (z right) in
  num_sqrt (num_add (num_add (num_mul dx dx) (num_mul dy dy)) (num_mul dz dz)).

(** [Cesium.Math.toDegrees(radians)] *)
Definition Math_toDegrees {N : Type} `{JSNumber N} (radians : N) : N :=
  num_mul radians DEGREES_PER_RADIAN.

(** The entity argument of [limitEntity], as far as the class looks at it. *)
Inductive Entity (N : Type) :=
| (** ["primitive" in entity]; the argument is [entity.primitive.position] *)
  EntityPrimitive (position : option (Cartesian3 N))
| (** the argument is the result of [entity.position.getValue()] *)
  EntityPosition (getValue : option (Cartesian3 N))
| (** [entity.primitive] or [entity.position] is [undefined]: reading
      through it throws *)
  EntityBare.
Arguments EntityPrimitive {N} _.
Arguments EntityPosition {N} _.
Arguments EntityBare {N}.

(** [distanceTestFunction] together with [parameters], as the two installers
    pass them to [limitCamera]: [this.testCameraBBOX] with five numbers or
    [this.testCameraDistanceFromEntity] with an entity and two numbers.  The
    entity is the entity object as a check finds it; a change of it between
    frames is [moveEntity] below. *)
Inductive TestCall (N : Type) :=
| CallTestCameraBBOX (xmin ymin xmax ymax zmax : N)
| CallTestCameraDistanceFromEntity (entity : Entity N) (distance zlimit : N).
Arguments CallTestCameraBBOX {N} _ _ _ _ _.
Arguments CallTestCameraDistanceFromEntity {N} _ _ _.

(** ** State *)

(** References to [Cartesian3] objects. *)
Definition loc := positive.

(** The part of the viewer the class reads or writes.  [objects] is the
    store of [Cartesian3] objects; [camera_position] is the reference held
    in [camera.position], an object the engine updates in place.
    [preRender] lists the listeners of [viewer.scene.preRender] in the order
    they were added, each with the token that tells closures apart;
    [removerCalls] records the calls of the functions [addEventListener]
    returned. *)
Record Viewer (N : Type) := mkViewer {
  objects : gmap loc (Cartesian3 N);
  camera_position : loc;
  camera_positionCartographic : Cartographic N;
  camera_heading : N;
  camera_pitch : N;
  camera_roll : N;
  preRender : list (nat * TestCall N);
  preRender_next : nat;
  removerCalls : list nat
}.
Arguments mkViewer {N} _ _ _ _ _ _ _ _ _.
Arguments objects {N} _.
Arguments camera_position {N} _.
Arguments camera_positionCartographic {N} _.
Arguments camera_heading {N} _.
Arguments camera_pitch {N} _.
Arguments camera_roll {N} _.
Arguments preRender {N} _.
Arguments preRender_next {N} _.
Arguments removerCalls {N} _.

(** The instance of the class: [this].  [cameraMovementListener] is
    [undefined] or the function returned by [addEventListener] (its token);
    [dispatched] lists the types of the events given to [dispatchEvent]. *)
Record CameraBounds (N : Type) := mkCameraBounds {
  viewer : Viewer N;
  cameraMovementListener : option nat;
  previousCameraPosition : option loc;
  previousCameraOrientation : option (Orientation N);
  dispatched : list string
}.
Arguments mkCameraBounds {N} _ _ _ _ _.
Arguments viewer {N} _.
Arguments cameraMovementListener {N} _.
Arguments previousCameraPosition {N} _.
Arguments previousCameraOrientation {N} _.
Arguments dispatched {N} _.

(** A method call returns or throws; either way the state goes on. *)
Inductive Outcome (N A : Type) :=
| Normal (a : A) (this : CameraBounds N)
| Throw (this : CameraBounds N).
Arguments Normal {N A} _ _.
Arguments Throw {N A} _.

Definition Method (N A : Type) : Type := CameraBounds N -> Outcome N A.

Definition ret {N A} (a : A) : Method N A := fun this => Normal a this.

Definition bind {N A B} (m : Method N A) (k : A -> Method N B) : Method N B :=
  fun this =>
    match m this with
    | Normal a this' => k a this'
    | Throw this' => Throw this'
    end.

Definition throw {N A} : Method N A := fun this => Throw this.

Notation "'let!' x ':=' m 'in' k" := (bind m (fun x => k))
  (at level 10, x name, m at level 100, k at level 200).
Notation "m '>>' k" := (bind m (fun _ => k))
  (at level 90, right associativity).

(** The state after a call, whichever way it ended. *)
Definition state_of {N A} (o : Outcome N A) : CameraBounds N :=
  match o with Normal _ this => this | Throw this => this end.

(** ** The class *)

Section Class.
Context {N : Type} `{JSNumber N} (E : Engine N).

Definition get {A} (f : CameraBounds N -> A) : Method N A :=
  fun this => Normal (f this) this.

Definition modify (f : CameraBounds N -> CameraBounds N) : Method N unit :=
  fun this => Normal tt (f this).

(** Field assignments. *)
Definition set_viewer (v : Viewer N) (this : CameraBounds N) :=
  mkCameraBounds v (cameraMovementListener this) (previousCameraPosition this)
    (previousCameraOrientation this) (dispatched this).
Definition set_cameraMovementListener (l : option nat) (this : CameraBounds N) :=
  mkCameraBounds (viewer this) l (previousCameraPosition this)
    (previousCameraOrientation this) (dispatched this).
Definition set_previousCameraPosition (p : option loc) (this : CameraBounds N) :=
  mkCameraBounds (viewer this) (cameraMovementListener this) p
    (previousCameraOrientation this) (dispatched this).
Definition set_previousCameraOrientation
  (o : option (Orientation N)) (this : CameraBounds N) :=
  mkCameraBounds (viewer this) (cameraMovementListener this)
    (previousCameraPosition this) o (dispatched this).

Definition set_objects (h : gmap loc (Cartesian3 N)) (v : Viewer N) :=
  mkViewer h (camera_position v) (camera_positionCartographic v)
    (camera_heading v) (camera_pitch v) (camera_roll v)
    (preRender v) (preRender_next v) (removerCalls v).

(** The camera shows [view]: its position object is overwritten in place. *)
Definition show (view : CameraView N) (v : Viewer N) :=
  mkViewer (<[camera_position v := view_position view]> (objects v))
    (camera_position v) (view_positionCartographic view)
    (heading (view_orientation view)) (pitch (view_orientation view))
    (roll (view_orientation view))
    (preRender v) (preRender_next v) (removerCalls v).

(** *** Engine calls *)

(** The object a reference points to, [undefined] if there is none. *)
Definition deref (v : Viewer N) (o : option loc) : option (Cartesian3 N) :=
  match o with
  | Some l => objects v !! l
  | None => None
  end.

(** [Cesium.Cartesian3.clone(cartesian)]: [undefined] for an undefined
    argument, otherwise a new object with the same coordinates. *)
Definition Cartesian3_clone (cartesian : loc) : Method N (option loc) :=
  fun this =>
    let v := viewer this in
    match objects v !! cartesian with
    | None => Normal None this
    | Some c =>
        let l := fresh (dom (objects v)) in
        Normal (Some l) (set_viewer (set_objects (<[l := c]> (objects v)) v) this)
    end.

(** [this.camera.setView({destination, orientation})].  The engine copies
    the coordinates of [destination] into the camera's own position
    object. *)
Definition camera_setView
  (destination : option loc) (orientation : option (Orientation N))
  : Method N unit :=
  fun this =>
    let v := viewer this in
    match objects v !! camera_position v with
    | None => Throw this
    | Some p =>
        let now :=
          mkCameraView p (camera_positionCartographic v)
            (mkOrientation (camera_heading v) (camera_pitch v) (camera_roll v)) in
        Normal tt
          (set_viewer (show (setView E now (deref v destination) orientation) v)
             this)
    end.

(** [this.viewer.scene.preRender.addEventListener(listener)]: the listener
    is appended and the function that removes it is returned. *)
Definition preRender_addEventListener (listener : TestCall N) : Method N nat :=
  fun this =>
    let v := viewer this in
    let token := preRender_next v in
    Normal token
      (set_viewer
         (mkViewer (objects v) (camera_position v)
            (camera_positionCartographic v) (camera_heading v)
            (camera_pitch v) (camera_roll v)
            (preRender v ++ [(token, listener)]) (S token) (removerCalls v))
         this).

(** [Event.removeEventListener]: the first registration of the listener is
    removed, if there is one. *)
Fixpoint removeEventListener
  (token : nat) (ls : list (nat * TestCall N)) : list (nat * TestCall N) :=
  match ls with
  | [] => []
  | (t, c) :: rest =>
      if Nat.eqb t token then rest else (t, c) :: removeEventListener token rest
  end.

(** A call of the function [addEventListener] returned. *)
Definition call_remover (token : nat) : Method N unit :=
  fun this =>
    let v := viewer this in
    Normal tt
      (set_viewer
         (mkViewer (objects v) (camera_position v)
            (camera_positionCartographic v) (camera_heading v)
            (camera_pitch v) (camera_roll v)
            (removeEventListener token (preRender v)) (preRender_next v)
            (removerCalls v ++ [token]))
         this).

(** [this.dispatchEvent(new Event(type))] *)
Definition dispatchEvent (type : string) : Method N unit :=
  modify (fun this =>
    mkCameraBounds (viewer this) (cameraMovementListener this)
      (previousCameraPosition this) (previousCameraOrientation this)
      (dispatched this ++ [type])).

(** *** Methods *)

Definition init : Method N unit :=
  modify (fun this =>
    mkCameraBounds (viewer this) None None None (dispatched this)).

Definition constructor (cesiumViewer : Viewer N) : Outcome N unit :=
  init (mkCameraBounds cesiumViewer None None None []).

(** [ellipsoid.scaleToGeodeticSurface(p, ellipsoid.cartesianToCartographic(p))];
    the engine throws on an undefined [p]. *)
Definition onEllipsoid (ellipsoid : Ellipsoid N) (p : option (Cartesian3 N))
  : Method N (option (Cartesian3 N)) :=
  match p with
  | None => throw
  | Some c =>
      ret (scaleToGeodeticSurface ellipsoid c (cartesianToCartographic ellipsoid c))
  end.

Definition testCameraDistanceFromEntity
  (entity : Entity N) (distance zlimit : N) : Method N bool :=
  let! entityPosition :=
    match entity with
    | EntityPrimitive position => ret position
    | EntityPosition getValue => ret getValue
    | EntityBare => throw
    end in
  let! cameraPosition :=
    get (fun this => deref (viewer this) (Some (camera_position (viewer this)))) in
  let! ellipsoid :=
    match scene_globe E with
    | Some e => ret e
    | None => throw
    end in
  let! cameraPositionOnEllipsoid := onEllipsoid ellipsoid cameraPosition in
  let! entityPositionOnEllipsoid := onEllipsoid ellipsoid entityPosition in
  let! distCamera :=
    match cameraPositionOnEllipsoid, entityPositionOnEllipsoid with
    | Some a, Some b => ret (Cartesian3_distance a b)
    | _, _ => throw
    end in
  let! positionCartographic :=
    get (fun this => camera_positionCartographic (viewer this)) in
  let cameraHeight := height positionCartographic in
  ret (num_gt distCamera distance || num_gt cameraHeight zlimit).

Definition testCameraBBOX (xmin ymin xmax ymax zmax : N) : Method N bool :=
  let! cameraPosition :=
    get (fun this => camera_positionCartographic (viewer this)) in
  let lon := Math_toDegrees (longitude cameraPosition) in
  let lat := Math_toDegrees (latitude cameraPosition) in
  let z := height cameraPosition in
  ret (negb (num_ge lon xmin && num_le lon xmax &&
             num_ge lat ymin && num_le lat ymax && num_le z zmax)).

(** [distanceTestFunction.apply(this, parameters)] *)
Definition apply_test (call : TestCall N) : Method N bool :=
  match call with
  | CallTestCameraBBOX xmin ymin xmax ymax zmax =>
      testCameraBBOX xmin ymin xmax ymax zmax
  | CallTestCameraDistanceFromEntity entity distance zlimit =>
      testCameraDistanceFromEntity entity distance zlimit
  end.

Definition disableCameraMovementLimitation : Method N unit :=
  let! listener := get cameraMovementListener in
  match listener with
  | Some remover =>
      call_remover remover >>
      modify (set_cameraMovementListener None)
  | None => ret tt
  end.

(** The closure [checkCameraPosition] of [limitCamera]. *)
Definition checkCameraPosition (call : TestCall N) : Method N unit :=
  let! violated := apply_test call in
  if violated : bool then
    let! destination := get previousCameraPosition in
    let! orientation := get previousCameraOrientation in
    camera_setView destination orientation >>
    dispatchEvent "cameraBlocked"
  else
    let! position := get (fun this => camera_position (viewer this)) in
    let! clone := Cartesian3_clone position in
    modify (set_previousCameraPosition clone) >>
    let! orientation :=
      get (fun this =>
        mkOrientation (camera_heading (viewer this))
          (camera_pitch (viewer this)) (camera_roll (viewer this))) in
    modify (set_previousCameraOrientation (Some orientation)).

Definition limitCamera (call : TestCall N) : Method N unit :=
  disableCameraMovementLimitation >>
  let! remover := preRender_addEventListener call in
  modify (set_cameraMovementListener (Some remover)).

Definition limitBBOX (xmin ymin xmax ymax zmax : N) : Method N unit :=
  limitCamera (CallTestCameraBBOX xmin ymin xmax ymax zmax).

Definition limitEntity (entity : Entity N) (distance zlimit : N) : Method N unit :=
  limitCamera (CallTestCameraDistanceFromEntity entity distance zlimit).

(** *** The render loop and the host *)

(** [Event.raiseEvent]: the listeners are called in order. *)
Fixpoint raiseEvent (ls : list (nat * TestCall N)) : Method N unit :=
  match ls with
  | [] => ret tt
  | (_, call) :: rest => checkCameraPosition call >> raiseEvent rest
  end.

(** The start of a frame: [viewer.scene.preRender] is raised. *)
Definition frame : Method N unit :=
  fun this => raiseEvent (preRender (viewer this)) this.

(** Camera motion between frames (user input, a flight): the engine updates
    the camera in place. *)
Definition moveCamera (view : CameraView N) : Method N unit :=
  modify (fun this => set_viewer (show view (viewer this)) this).

(** The pose the class has recorded, read through the reference it holds. *)
Definition recordedPose (this : CameraBounds N)
  : option (Cartesian3 N) * option (Orientation N) :=
  (deref (viewer this) (previousCameraPosition this),
   previousCameraOrientation this).

(** The pose of the camera. *)
Definition cameraPose (this : CameraBounds N)
  : option (Cartesian3 N) * option (Orientation N) :=
  (deref (viewer this) (Some (camera_position (viewer this))),
   Some (mkOrientation (camera_heading (viewer this))
           (camera_pitch (viewer this)) (camera_roll (viewer this)))).

End Class.

(** ** Two engines to run the class on *)

(** [-Math.PI / 2] *)
Definition minus_half_pi : float := (- 0x1.921fb54442d18p+0)%float.

(** [Cesium.Math.toRadians(degrees)] *)
Definition toRadians (degrees : float) : float :=
  (degrees * (0x1.921fb54442d18p+1 / 180))%float.

(** A viewer without a globe whose camera coordinates are chart
    coordinates: [x] is the longitude and [y] the latitude in radians, [z]
    the height.  [setView] keeps the position when no destination is given
    and looks straight down when no orientation is given. *)
Definition chartEngine : Engine float :=
  mkEngine None
    (fun now destination orientation =>
       let p := default (view_position now) destination in
       mkCameraView p (mkCartographic (x p) (y p) (z p))
         (default (mkOrientation 0%float minus_half_pi 0%float) orientation)).

(** The chart viewer with the camera at the given longitude and latitude
    (degrees) and height, looking straight down, nothing subscribed. *)
Definition chartViewer (lon lat h : float) : Viewer float :=
  let lam := toRadians lon in
  let phi := toRadians lat in
  mkViewer {[ 1%positive := mkCartesian3 lam phi h ]} 1%positive
    (mkCartographic lam phi h) 0%float minus_half_pi 0%float [] 0 [].

(** What the chart camera shows at the given longitude and latitude
    (degrees) and height, looking straight down. *)
Definition chartView (lon lat h : float) : CameraView float :=
  let lam := toRadians lon in
  let phi := toRadians lat in
  mkCameraView (mkCartesian3 lam phi h) (mkCartographic lam phi h)
    (mkOrientation 0%float minus_half_pi 0%float).

(** The box of the specification's first scenario. *)
Definition scenarioBox : TestCall float :=
  CallTestCameraBBOX (-80)%float 30%float (-70)%float 40%float 10000%float.

(** A new instance on a viewer. *)
Definition new_CameraBounds {N : Type} (cesiumViewer : Viewer N)
  : CameraBounds N :=
  state_of (constructor cesiumViewer).

(** The instance of the first scenario: created with the camera inside the
    box, the box installed, one frame rendered. *)
Definition insideRecorded : CameraBounds float :=
  state_of (frame chartEngine
    (state_of (limitCamera scenarioBox
       (new_CameraBounds (chartViewer (-75) 35 5000))))).

(** The same after the camera has moved east of the box. *)
Definition strayed : CameraBounds float :=
  state_of (moveCamera (chartView (-69) 35 5000) insideRecorded).

(** An instance created with the camera east of the box, the box installed,
    no frame rendered yet. *)
Definition startedOutside : CameraBounds float :=
  state_of (limitCamera scenarioBox
    (new_CameraBounds (chartViewer (-69) 35 5000))).

Section Sphere.
Local Open Scope R_scope.

Definition magnitude (p : Cartesian3 R) : R :=
  sqrt (x p * x p + y p * y p + z p * z p).

Definition atan2 (b a : R) : R :=
  if Rlt_dec 0 a then atan (b / a)
  else if Rlt_dec a 0 then
    (if Rle_dec 0 b then atan (b / a) + PI else atan (b / a) - PI)
  else if Rlt_dec 0 b then PI / 2
  else if Rlt_dec b 0 then - (PI / 2)
  else 0.

(** The sphere of the given radius as reference ellipsoid
    ([Cesium.Ellipsoid.UNIT_SPHERE] for radius 1). *)
Definition sphere (radius : R) : Ellipsoid R :=
  mkEllipsoid
    (fun p =>
       if Req_dec_T (magnitude p) 0 then None
       else Some (mkCartographic (atan2 (y p) (x p)) (asin (z p / magnitude p))
                    (magnitude p - radius)))
    (fun p _ =>
       if Req_dec_T (magnitude p) 0 then None
       else
         let s := radius / magnitude p in
         Some (mkCartesian3 (s * x p) (s * y p) (s * z p))).

Definition sphereEngine (radius : R) : Engine R :=
  mkEngine (Some (sphere radius))
    (fun now destination orientation =>
       let p := default (view_position now) destination in
       mkCameraView p
         (default (view_positionCartographic now)
            (cartesianToCartographic (sphere radius) p))
         (default (mkOrientation 0 (- (PI / 2)) 0) orientation)).

(** The viewer of the unit sphere with the camera on the surface at
    longitude 0 and latitude 0, looking straight down. *)
Definition sphereViewer : Viewer R :=
  mkViewer {[ 1%positive := mkCartesian3 1 0 0 ]} 1%positive
    (mkCartographic 0 0 0) 0 (- (PI / 2)) 0 [] 0%nat [].

(** The camera of [sphereViewer] and an entity a quarter of the equator
    away, both on the surface of the unit sphere. *)
Definition cameraPoint : Cartesian3 R := mkCartesian3 1 0 0.
Definition entityPoint : Cartesian3 R := mkCartesian3 0 1 0.

(** Follows the specification's words: the distance between two points of
    the sphere measured along its surface, the length of the great-circle
    arc between them. *)
Definition surfaceDistance (radius : R) (a b : Cartesian3 R) : R :=
  radius * acos ((x a * x b + y a * y b + z a * z b) / (radius * radius)).

(** Follows the specification's words: out of bounds when the surface
    distance between the projected camera and entity positions exceeds the
    maximum horizontal distance or the camera's height exceeds the maximum
    height. *)
Definition spec_entity_out_of_bounds
  (radius : R) (cameraOnSurface entityOnSurface : Cartesian3 R)
  (cameraHeight maxHorizontalDistance maxHeight : R) : bool :=
  Rltb maxHorizontalDistance
    (surfaceDistance radius cameraOnSurface entityOnSurface)
  || Rltb maxHeight cameraHeight.

End Sphere.

(** ** Life of an instance *)

Section Lifecycle.
Context {N : Type} `{JSNumber N} (E : Engine N).

(** The instance holds the remover of the one listener subscribed, whose
    token the viewer has handed out, or holds none and nothing is
    subscribed. *)
Definition subscription_ok (this : CameraBounds N) : Prop :=
  match cameraMovementListener this with
  | None => preRender (viewer this) = []
  | Some token =>
      (exists call, preRender (viewer this) = [(token, call)]) /\
      token < preRender_next (viewer this)
  end.

(** What a frame leaves alone: the listeners, the next token, the calls of
    removers and the handle. *)
Definition subscription (this : CameraBounds N)
  : list (nat * TestCall N) * nat * list nat * option nat :=
  (preRender (viewer this), preRender_next (viewer this),
   removerCalls (viewer this), cameraMovementListener this).

(** What the host and the render loop do with an instance. *)
Inductive Operation :=
| OpLimitBBOX (xmin ymin xmax ymax zmax : N)
| OpLimitEntity (entity : Entity N) (distance zlimit : N)
| OpDisable
| OpFrame
| OpMoveCamera (view : CameraView N).

Definition run (op : Operation) : Method N unit :=
  match op with
  | OpLimitBBOX xmin ymin xmax ymax zmax => limitBBOX xmin ymin xmax ymax zmax
  | OpLimitEntity entity distance zlimit => limitEntity entity distance zlimit
  | OpDisable => disableCameraMovementLimitation
  | OpFrame => frame E
  | OpMoveCamera view => moveCamera view
  end.

(** The states of an instance created on a viewer nothing is subscribed to. *)
Inductive reachable : CameraBounds N -> Prop :=
| reachable_new (cesiumViewer : Viewer N) :
    preRender cesiumViewer = [] ->
    reachable (new_CameraBounds cesiumViewer)
| reachable_step (this : CameraBounds N) (op : Operation) :
    reachable this ->
    reachable (state_of (run op this)).

(** Frames, each after a motion of the camera. *)
Fixpoint render (motions : list (CameraView N)) (this : CameraBounds N)
  : CameraBounds N :=
  match motions with
  | [] => this
  | view :: rest =>
      render rest (state_of (frame E (state_of (moveCamera view this))))
  end.

End Lifecycle.

(** ** Runs of frames *)

(** [a <= b] and [b <= c] give [a <= c]; it holds of doubles and of reals. *)
Definition LeTransitive (N : Type) `{JSNumber N} : Prop :=
  forall a b c : N,
    num_le a b = true -> num_le b c = true -> num_le a c = true.

(** [a <= b] and [b < c] give [a < c]; it holds of doubles and of reals. *)
Definition LeLtTransitive (N : Type) `{JSNumber N} : Prop :=
  forall a b c : N,
    num_le a b = true -> num_lt b c = true -> num_lt a c = true.

Section Runs.
Context {N : Type} `{JSNumber N} (E : Engine N).

(** What a call returned, [None] if it threw. *)
Definition returned {A : Type} (o : Outcome N A) : option A :=
  match o with
  | Normal a _ => Some a
  | Throw _ => None
  end.

(** What the predicate answers once the camera shows [view]. *)
Definition verdict
  (call : TestCall N) (this : CameraBounds N) (view : CameraView N)
  : option bool :=
  returned (apply_test E call (state_of (moveCamera view this))).

(** The pose a view shows. *)
Definition poseOf (view : CameraView N)
  : option (Cartesian3 N) * option (Orientation N) :=
  (Some (view_position view), Some (view_orientation view)).

(** The entity of the subscribed limitation as it is now.  The closure
    holds the entity object and reads its position anew on every check; when
    the entity moves, or its position becomes undefined, the next check
    sees the entity as it then is. *)
Definition retarget (entity : Entity N) (call : TestCall N) : TestCall N :=
  match call with
  | CallTestCameraBBOX xmin ymin xmax ymax zmax =>
      CallTestCameraBBOX xmin ymin xmax ymax zmax
  | CallTestCameraDistanceFromEntity _ distance zlimit =>
      CallTestCameraDistanceFromEntity entity distance zlimit
  end.

(** The host or the engine changes the entity between frames. *)
Definition moveEntity (entity : Entity N) : Method N unit :=
  modify (fun this =>
    let v := viewer this in
    set_viewer
      (mkViewer (objects v) (camera_position v)
         (camera_positionCartographic v) (camera_heading v)
         (camera_pitch v) (camera_roll v)
         (map (fun listener => (fst listener, retarget entity (snd listener)))
            (preRender v))
         (preRender_next v) (removerCalls v))
      this).

(** What happens between two frames: the entity may change, the camera
    moves. *)
Record Tick := mkTick {
  tick_entity : option (Entity N);
  tick_view : CameraView N
}.

Definition between (tick : Tick) : Method N unit :=
  match tick_entity tick with
  | Some entity => moveEntity entity
  | None => ret tt
  end >>
  moveCamera (tick_view tick).

(** Frames, each after a tick. *)
Fixpoint renderScene (ticks : list Tick) (this : CameraBounds N)
  : CameraBounds N :=
  match ticks with
  | [] => this
  | tick :: rest =>
      renderScene rest (state_of (frame E (state_of (between tick this))))
  end.

(** The limitation after a tick. *)
Definition callAfter (tick : Tick) (call : TestCall N) : TestCall N :=
  match tick_entity tick with
  | Some entity => retarget entity call
  | None => call
  end.

(** The number of ticks after which the predicate, asked about the entity
    and the camera as they then are, reports a violation. *)
Fixpoint blockedTicks
  (call : TestCall N) (this : CameraBounds N) (ticks : list Tick) : nat :=
  match ticks with
  | [] => 0
  | tick :: rest =>
      match verdict (callAfter tick call) this (tick_view tick) with
      | Some true => S (blockedTicks (callAfter tick call) this rest)
      | _ => blockedTicks (callAfter tick call) this rest
      end
  end.

(** The pose of the camera after the last tick after which the predicate
    reports no violation, [start] if there is none. *)
Fixpoint lastInBounds
  (call : TestCall N) (this : CameraBounds N)
  (start : option (Cartesian3 N) * option (Orientation N))
  (ticks : list Tick)
  : option (Cartesian3 N) * option (Orientation N) :=
  match ticks with
  | [] => start
  | tick :: rest =>
      match verdict (callAfter tick call) this (tick_view tick) with
      | Some false =>
          lastInBounds (callAfter tick call) this (poseOf (tick_view tick)) rest
      | _ => lastInBounds (callAfter tick call) this start rest
      end
  end.

(** The limitation after all the ticks. *)
Definition callAtEnd (call : TestCall N) (ticks : list Tick) : TestCall N :=
  fold_left (fun c tick => callAfter tick c) ticks call.

(** The recorded position is an object of the store other than the
    camera's position object. *)
Definition record_ok (this : CameraBounds N) : Prop :=
  match previousCameraPosition this with
  | Some l =>
      l <> camera_position (viewer this) /\ is_Some (objects (viewer this) !! l)
  | None => True
  end.

End Runs.

Arguments Tick : clear implicits.
Arguments mkTick {N} _ _.
Arguments tick_entity {N} _.
Arguments tick_view {N} _.


(** What the camera of [sphereViewer] shows. *)
Definition sphereView : CameraView R :=
  mkCameraView cameraPoint (mkCartographic 0%R 0%R 0%R)
    (mkOrientation 0%R (- (PI / 2))%R 0%R).

(** [sphereViewer] with the camera limited to distance 1 and height 1 from
    an entity a quarter of the equator away. *)
Definition sphereLimited : CameraBounds R :=
  state_of (limitEntity (EntityPosition (Some entityPoint)) 1%R 1%R
              (new_CameraBounds sphereViewer)).

(** ** Numbers: the law of strict comparison *)

Lemma SFcompare_Lt_swap (a b : spec_float) :
  SFcompare a b = Some Lt -> SFcompare b a = Some Gt.
Proof.
  destruct a as [sa | sa | | sa ma ea], b as [sb | sb | | sb mb eb];
    cbn; try discriminate;
    repeat match goal with s : bool |- _ => destruct s end;
    cbn; try discriminate; try reflexivity.
  all: rewrite (Z.compare_antisym ea eb); destruct (ea ?= eb)%Z; cbn;
    try discriminate; try reflexivity.
  all: pose proof (Pos.compare_cont_antisym ma mb Eq) as Ha; cbn in Ha;
    rewrite <- Ha; destruct (Pos.compare_cont Eq ma mb); cbn;
    try discriminate; reflexivity.
Qed.

Lemma float_StrictExcludes : StrictExcludes float.
Proof.
  intros a b. cbn. rewrite ltb_spec, leb_spec. unfold SFltb, SFleb. intros Hlt.
  destruct (SFcompare (Prim2SF a) (Prim2SF b)) as [[ | | ] | ] eqn:Hc;
    try discriminate.
  rewrite (SFcompare_Lt_swap _ _ Hc). reflexivity.
Qed.

Lemma real_StrictExcludes : StrictExcludes R.
Proof.
  intros a b. cbn. unfold Rltb, Rleb.
  destruct (Rlt_dec a b); [ | discriminate ].
  destruct (Rle_dec b a); [ lra | reflexivity ].
Qed.

(** ** Executable checks *)

(** Scenario 1 of the specification: box (-80, 30, -70, 40, 10000). *)
Example scenario1_inside :
  testCameraBBOX (-80)%float 30%float (-70)%float 40%float 10000%float
    (new_CameraBounds (chartViewer (-75) 35 5000))
  = Normal false (new_CameraBounds (chartViewer (-75) 35 5000)).
Proof. vm_compute. reflexivity. Qed.

Example scenario1_outside :
  testCameraBBOX (-80)%float 30%float (-70)%float 40%float 10000%float
    (new_CameraBounds (chartViewer (-69) 35 5000))
  = Normal true (new_CameraBounds (chartViewer (-69) 35 5000)).
Proof. vm_compute. reflexivity. Qed.

(** ** The predicates *)

Section Predicates.
Context {N : Type} `{JSNumber N} (E : Engine N).

Ltac step :=
  unfold bind, get, modify, ret, throw, onEllipsoid; cbn.

Lemma testCameraBBOX_state (xmin ymin xmax ymax zmax : N) (this : CameraBounds N) :
  state_of (testCameraBBOX xmin ymin xmax ymax zmax this) = this.
Proof. reflexivity. Qed.

Lemma testCameraDistanceFromEntity_state
  (entity : Entity N) (distance zlimit : N) (this : CameraBounds N) :
  state_of (testCameraDistanceFromEntity E entity distance zlimit this) = this.
Proof.
  unfold testCameraDistanceFromEntity. step.
  destruct entity as [[p | ] | [p | ] | ]; step; try reflexivity;
    destruct (scene_globe E) as [el | ]; step; try reflexivity;
    destruct (objects (viewer this) !! camera_position (viewer this));
    step; try reflexivity;
    repeat match goal with
    | |- context [match ?o with Some _ => _ | None => _ end] =>
        destruct o; step; try reflexivity
    end.
Qed.

Lemma apply_test_state (call : TestCall N) (this : CameraBounds N) :
  state_of (apply_test E call this) = this.
Proof.
  destruct call; unfold apply_test.
  - apply testCameraBBOX_state.
  - apply testCameraDistanceFromEntity_state.
Qed.

(** C10: evaluating either predicate leaves the whole state as it was: the
    recorded position and orientation, the subscription handle, the
    camera, and everything else the class or the viewer holds; this holds
    whether the predicate returns or throws. *)
Theorem predicates_leave_state
  (xmin ymin xmax ymax zmax : N) (entity : Entity N) (distance zlimit : N)
  (this : CameraBounds N) :
  let after_bbox := state_of (testCameraBBOX xmin ymin xmax ymax zmax this) in
  let after_entity :=
    state_of (testCameraDistanceFromEntity E entity distance zlimit this) in
  (after_bbox = this /\ after_entity = this) /\
  (previousCameraPosition after_bbox = previousCameraPosition this /\
   previousCameraOrientation after_bbox = previousCameraOrientation this /\
   cameraMovementListener after_bbox = cameraMovementListener this /\
   cameraPose after_bbox = cameraPose this) /\
  (previousCameraPosition after_entity = previousCameraPosition this /\
   previousCameraOrientation after_entity = previousCameraOrientation this /\
   cameraMovementListener after_entity = cameraMovementListener this /\
   cameraPose after_entity = cameraPose this).
Proof.
  cbv zeta.
  rewrite testCameraBBOX_state, testCameraDistanceFromEntity_state.
  repeat split.
Qed.

(** C2: [testCameraBBOX] returns, and it reports "in bounds" ([false])
    exactly when the camera's longitude in degrees is in [[xmin, xmax]], its
    latitude in degrees is in [[ymin, ymax]] and its height is at most
    [zmax]; a camera strictly outside on one of the four edges or strictly
    above the ceiling is reported "out of bounds" ([true]). *)
Theorem testCameraBBOX_in_bounds_iff
  (xmin ymin xmax ymax zmax : N) (this : CameraBounds N) :
  StrictExcludes N ->
  let position := camera_positionCartographic (viewer this) in
  let lon := Math_toDegrees (longitude position) in
  let lat := Math_toDegrees (latitude position) in
  let h := height position in
  exists outside : bool,
    testCameraBBOX xmin ymin xmax ymax zmax this = Normal outside this /\
    (outside = false <->
       num_le xmin lon = true /\ num_le lon xmax = true /\
       num_le ymin lat = true /\ num_le lat ymax = true /\
       num_le h zmax = true) /\
    (num_lt lon xmin = true \/ num_lt xmax lon = true \/
     num_lt lat ymin = true \/ num_lt ymax lat = true \/
     num_lt zmax h = true ->
     outside = true).
Proof.
  intros Hstrict. cbv zeta.
  eexists. split; [ reflexivity | ].
  unfold num_ge. split.
  - rewrite negb_false_iff, !andb_true_iff. tauto.
  - rewrite negb_true_iff.
    intros [Ho | [Ho | [Ho | [Ho | Ho]]]]; apply Hstrict in Ho; rewrite Ho;
      cbn; rewrite ?andb_false_r; reflexivity.
Qed.

(** The value [testCameraDistanceFromEntity] returns when everything it
    reads is defined. *)
Lemma testCameraDistanceFromEntity_returns
  (entity : Entity N) (distance zlimit : N) (this : CameraBounds N)
  (ellipsoid : Ellipsoid N)
  (cameraPosition entityPosition cameraOnSurface entityOnSurface : Cartesian3 N) :
  entity = EntityPrimitive (Some entityPosition) \/
  entity = EntityPosition (Some entityPosition) ->
  scene_globe E = Some ellipsoid ->
  objects (viewer this) !! camera_position (viewer this) = Some cameraPosition ->
  scaleToGeodeticSurface ellipsoid cameraPosition
    (cartesianToCartographic ellipsoid cameraPosition) = Some cameraOnSurface ->
  scaleToGeodeticSurface ellipsoid entityPosition
    (cartesianToCartographic ellipsoid entityPosition) = Some entityOnSurface ->
  testCameraDistanceFromEntity E entity distance zlimit this
  = Normal
      (num_gt (Cartesian3_distance cameraOnSurface entityOnSurface) distance
       || num_gt (height (camera_positionCartographic (viewer this))) zlimit)
      this.
Proof.
  intros Hentity Hglobe Hcamera HcameraOn HentityOn.
  unfold testCameraDistanceFromEntity.
  destruct Hentity as [-> | ->]; step;
    rewrite Hglobe; step; rewrite Hcamera; step; rewrite HcameraOn; step;
    rewrite HentityOn; reflexivity.
Qed.

(** When one of the things [testCameraDistanceFromEntity] reads is
    undefined, it throws and leaves the state as it is. *)
Lemma testCameraDistanceFromEntity_throws
  (entity : Entity N) (distance zlimit : N) (this : CameraBounds N) :
  entity = EntityBare \/
  entity = EntityPrimitive None \/
  entity = EntityPosition None \/
  scene_globe E = None \/
  objects (viewer this) !! camera_position (viewer this) = None \/
  (exists ellipsoid cameraPosition,
     scene_globe E = Some ellipsoid /\
     objects (viewer this) !! camera_position (viewer this)
     = Some cameraPosition /\
     scaleToGeodeticSurface ellipsoid cameraPosition
       (cartesianToCartographic ellipsoid cameraPosition) = None) \/
  (exists ellipsoid entityPosition,
     scene_globe E = Some ellipsoid /\
     (entity = EntityPrimitive (Some entityPosition) \/
      entity = EntityPosition (Some entityPosition)) /\
     scaleToGeodeticSurface ellipsoid entityPosition
       (cartesianToCartographic ellipsoid entityPosition) = None) ->
  testCameraDistanceFromEntity E entity distance zlimit this = Throw this.
Proof.
  intros Hbad. unfold testCameraDistanceFromEntity. step.
  destruct entity as [[p | ] | [p | ] | ]; step; try reflexivity;
    destruct (scene_globe E) as [el | ] eqn:Hglobe; step; try reflexivity;
    destruct (objects (viewer this) !! camera_position (viewer this))
      as [c | ] eqn:Hcamera; step; try reflexivity;
    destruct (scaleToGeodeticSurface el c (cartesianToCartographic el c))
      as [a | ] eqn:HcameraOn; step;
    try (destruct (scaleToGeodeticSurface el p (cartesianToCartographic el p))
           as [b | ] eqn:HentityOn; step);
    try reflexivity;
    exfalso;
    destruct Hbad as [Hb | [Hb | [Hb | [Hb | [Hb | [Hb | Hb]]]]]];
    try discriminate Hb;
    destruct Hb as (el' & q & Hel & Hq & Hnone);
    injection Hel as <-.
  1, 3: injection Hq as <-; congruence.
  all: destruct Hq as [Hq | Hq]; try discriminate Hq;
    injection Hq as <-; congruence.
Qed.

(** C3, as the code has it: with the globe's ellipsoid, the camera's
    position and the entity's position defined and both projections onto the
    ellipsoid surface defined, [testCameraDistanceFromEntity] returns, and it
    reports "out of bounds" ([true]) exactly when the straight-line distance
    [Cartesian3.distance] between the two projected points exceeds
    [distance] or the camera's own ellipsoidal height exceeds [zlimit]; when
    the entity's position, the globe, the camera's position or one of the
    two projections is undefined, it throws and leaves the state as it
    is. *)
Theorem testCameraDistanceFromEntity_out_of_bounds_iff
  (entity : Entity N) (distance zlimit : N) (this : CameraBounds N) :
  (forall (ellipsoid : Ellipsoid N)
     (cameraPosition entityPosition cameraOnSurface entityOnSurface
      : Cartesian3 N),
     entity = EntityPrimitive (Some entityPosition) \/
     entity = EntityPosition (Some entityPosition) ->
     scene_globe E = Some ellipsoid ->
     objects (viewer this) !! camera_position (viewer this)
     = Some cameraPosition ->
     scaleToGeodeticSurface ellipsoid cameraPosition
       (cartesianToCartographic ellipsoid cameraPosition)
     = Some cameraOnSurface ->
     scaleToGeodeticSurface ellipsoid entityPosition
       (cartesianToCartographic ellipsoid entityPosition)
     = Some entityOnSurface ->
     exists outside : bool,
       testCameraDistanceFromEntity E entity distance zlimit this
       = Normal outside this /\
       (outside = true <->
          num_lt distance (Cartesian3_distance cameraOnSurface entityOnSurface)
          = true \/
          num_lt zlimit (height (camera_positionCartographic (viewer this)))
          = true)) /\
  (entity = EntityBare \/
   entity = EntityPrimitive None \/
   entity = EntityPosition None \/
   scene_globe E = None \/
   objects (viewer this) !! camera_position (viewer this) = None \/
   (exists ellipsoid cameraPosition,
      scene_globe E = Some ellipsoid /\
      objects (viewer this) !! camera_position (viewer this)
      = Some cameraPosition /\
      scaleToGeodeticSurface ellipsoid cameraPosition
        (cartesianToCartographic ellipsoid cameraPosition) = None) \/
   (exists ellipsoid entityPosition,
      scene_globe E = Some ellipsoid /\
      (entity = EntityPrimitive (Some entityPosition) \/
       entity = EntityPosition (Some entityPosition)) /\
      scaleToGeodeticSurface ellipsoid entityPosition
        (cartesianToCartographic ellipsoid entityPosition) = None) ->
   testCameraDistanceFromEntity E entity distance zlimit this = Throw this).
Proof.
  split.
  - intros ellipsoid cameraPosition entityPosition cameraOnSurface
      entityOnSurface Hentity Hglobe Hcamera HcameraOn HentityOn.
    eexists. split.
    + apply (testCameraDistanceFromEntity_returns entity distance zlimit this
               ellipsoid cameraPosition entityPosition cameraOnSurface
               entityOnSurface); assumption.
    + unfold num_gt. apply orb_true_iff.
  - apply testCameraDistanceFromEntity_throws.
Qed.

End Predicates.

(** ** The frame callback *)

Section Frame.
Context {N : Type} `{JSNumber N} (E : Engine N).

Lemma Orientation_eta (o : Orientation N) :
  mkOrientation (heading o) (pitch o) (roll o) = o.
Proof. destruct o; reflexivity. Qed.

(** The callback on a frame on which the predicate reports a violation. *)
Lemma checkCameraPosition_violation
  (call : TestCall N) (this : CameraBounds N) (p : Cartesian3 N) :
  apply_test E call this = Normal true this ->
  objects (viewer this) !! camera_position (viewer this) = Some p ->
  let v := viewer this in
  let now :=
    mkCameraView p (camera_positionCartographic v)
      (mkOrientation (camera_heading v) (camera_pitch v) (camera_roll v)) in
  let shown :=
    setView E now (deref v (previousCameraPosition this))
      (previousCameraOrientation this) in
  checkCameraPosition E call this
  = Normal tt
      (mkCameraBounds (show shown v) (cameraMovementListener this)
         (previousCameraPosition this) (previousCameraOrientation this)
         (dispatched this ++ ["cameraBlocked"])).
Proof.
  intros Htest Hcam. cbv zeta.
  unfold checkCameraPosition, bind. rewrite Htest.
  unfold get, camera_setView, dispatchEvent, modify. cbn.
  rewrite Hcam. reflexivity.
Qed.

(** The callback on a frame on which the predicate reports no violation. *)
Lemma checkCameraPosition_in_bounds
  (call : TestCall N) (this : CameraBounds N) (p : Cartesian3 N) :
  apply_test E call this = Normal false this ->
  objects (viewer this) !! camera_position (viewer this) = Some p ->
  let v := viewer this in
  let l := fresh (dom (objects v)) in
  checkCameraPosition E call this
  = Normal tt
      (mkCameraBounds (set_objects (<[l := p]> (objects v)) v)
         (cameraMovementListener this) (Some l)
         (Some (mkOrientation (camera_heading v) (camera_pitch v)
                  (camera_roll v)))
         (dispatched this)).
Proof.
  intros Htest Hcam. cbv zeta.
  unfold checkCameraPosition, bind. rewrite Htest.
  unfold get, Cartesian3_clone, modify. cbn.
  rewrite Hcam. reflexivity.
Qed.

Lemma fresh_object (h : gmap loc (Cartesian3 N)) : h !! fresh (dom h) = None.
Proof. apply not_elem_of_dom, is_fresh. Qed.

(** C1: on a frame on which the predicate reports a violation, with a pose
    [pos0], [orient0] recorded and an engine whose [setView] shows what it
    is given, the callback returns with the camera showing exactly [pos0]
    and [orient0]; exactly one event, of type [cameraBlocked], has been
    dispatched by the call; the recorded position and orientation are the
    same references and values as before. *)
Theorem revert_on_violation
  (call : TestCall N) (this : CameraBounds N)
  (recorded : loc) (pos0 current : Cartesian3 N) (orient0 : Orientation N) :
  setView_snaps E ->
  apply_test E call this = Normal true this ->
  objects (viewer this) !! camera_position (viewer this) = Some current ->
  previousCameraPosition this = Some recorded ->
  objects (viewer this) !! recorded = Some pos0 ->
  previousCameraOrientation this = Some orient0 ->
  exists this',
    checkCameraPosition E call this = Normal tt this' /\
    cameraPose this' = (Some pos0, Some orient0) /\
    dispatched this' = dispatched this ++ ["cameraBlocked"] /\
    previousCameraPosition this' = Some recorded /\
    previousCameraOrientation this' = Some orient0 /\
    recordedPose this' = (Some pos0, Some orient0).
Proof.
  intros Hsnap Htest Hcam Hprev Hobj Horient.
  eexists. split.
  { apply (checkCameraPosition_violation call this current Htest Hcam). }
  rewrite Hprev, Horient. cbn. rewrite Hobj.
  destruct (Hsnap
    (mkCameraView current (camera_positionCartographic (viewer this))
       (mkOrientation (camera_heading (viewer this))
          (camera_pitch (viewer this)) (camera_roll (viewer this))))
    pos0 orient0) as [Hp Ho].
  unfold cameraPose, recordedPose. cbn. rewrite Hp, Ho, Orientation_eta.
  rewrite lookup_insert_eq.
  repeat split.
  f_equal.
  destruct (decide (camera_position (viewer this) = recorded)) as [-> | Hne].
  - apply lookup_insert_eq.
  - rewrite lookup_insert_ne by exact Hne. exact Hobj.
Qed.

(** The callback on a frame without violation, in terms of poses. *)
Lemma record_when_in_bounds_pose
  (call : TestCall N) (this : CameraBounds N) (p1 : Cartesian3 N) :
  apply_test E call this = Normal false this ->
  objects (viewer this) !! camera_position (viewer this) = Some p1 ->
  exists this',
    checkCameraPosition E call this = Normal tt this' /\
    recordedPose this' = cameraPose this /\
    cameraPose this' = cameraPose this /\
    cameraPose this
    = (Some p1,
       Some (mkOrientation (camera_heading (viewer this))
               (camera_pitch (viewer this)) (camera_roll (viewer this)))).
Proof.
  intros Htest Hcam.
  pose proof (fresh_object (objects (viewer this))) as Hfresh.
  assert (Hne : fresh (dom (objects (viewer this)))
                <> camera_position (viewer this)).
  { intros Heq. rewrite Heq in Hfresh. congruence. }
  eexists. split.
  { apply (checkCameraPosition_in_bounds call this p1 Htest Hcam). }
  unfold recordedPose, cameraPose. cbn.
  rewrite lookup_insert_eq, lookup_insert_ne by exact Hne. rewrite Hcam.
  repeat split.
Qed.

(** C4: on a frame on which the predicate reports no violation for the
    camera's pose [p1], [o1], the callback returns with that pose recorded
    in an object of its own, distinct from the camera's position object;
    the camera shows what it showed; no event has been dispatched; and a
    later motion of the camera leaves the recorded pose as it is. *)
Theorem record_when_in_bounds
  (call : TestCall N) (this : CameraBounds N) (p1 : Cartesian3 N) :
  apply_test E call this = Normal false this ->
  objects (viewer this) !! camera_position (viewer this) = Some p1 ->
  let o1 :=
    mkOrientation (camera_heading (viewer this)) (camera_pitch (viewer this))
      (camera_roll (viewer this)) in
  exists this',
    checkCameraPosition E call this = Normal tt this' /\
    recordedPose this' = (Some p1, Some o1) /\
    cameraPose this' = (Some p1, Some o1) /\
    cameraPose this = (Some p1, Some o1) /\
    camera_positionCartographic (viewer this')
    = camera_positionCartographic (viewer this) /\
    dispatched this' = dispatched this /\
    previousCameraPosition this' <> Some (camera_position (viewer this')) /\
    forall view : CameraView N,
      recordedPose (state_of (moveCamera view this')) = (Some p1, Some o1) /\
      cameraPose (state_of (moveCamera view this'))
      = (Some (view_position view),
         Some (mkOrientation (heading (view_orientation view))
                 (pitch (view_orientation view))
                 (roll (view_orientation view)))).
Proof.
  intros Htest Hcam. cbv zeta.
  pose proof (fresh_object (objects (viewer this))) as Hfresh.
  assert (Hne : fresh (dom (objects (viewer this)))
                <> camera_position (viewer this)).
  { intros Heq. rewrite Heq in Hfresh. congruence. }
  eexists. split.
  { apply (checkCameraPosition_in_bounds call this p1 Htest Hcam). }
  unfold recordedPose, cameraPose, moveCamera, modify. cbn.
  rewrite lookup_insert_eq, lookup_insert_ne by exact Hne. rewrite Hcam.
  repeat split.
  - congruence.
  - rewrite lookup_insert_ne by (intros Heq; apply Hne; symmetry; exact Heq).
    rewrite lookup_insert_eq. reflexivity.
  - rewrite lookup_insert_eq. reflexivity.
Qed.

(** C6, as the code has it: on a frame on which the predicate reports a
    violation while nothing is recorded yet, the callback returns with
    still nothing recorded, neither position nor orientation, and one
    [cameraBlocked] event dispatched; the pose is first recorded by a check
    on which the predicate reports no violation. *)
Theorem violation_with_nothing_recorded
  (call : TestCall N) (this : CameraBounds N) (current : Cartesian3 N) :
  apply_test E call this = Normal true this ->
  objects (viewer this) !! camera_position (viewer this) = Some current ->
  previousCameraPosition this = None ->
  previousCameraOrientation this = None ->
  exists this',
    checkCameraPosition E call this = Normal tt this' /\
    previousCameraPosition this' = None /\
    previousCameraOrientation this' = None /\
    recordedPose this' = (None, None) /\
    dispatched this' = dispatched this ++ ["cameraBlocked"].
Proof.
  intros Htest Hcam Hpos Hor.
  eexists. split.
  { apply (checkCameraPosition_violation call this current Htest Hcam). }
  unfold recordedPose. cbn. rewrite Hpos, Hor. repeat split.
Qed.

End Frame.

(** ** Subscriptions *)

Section Subscriptions.
Context {N : Type} `{JSNumber N} (E : Engine N).

Lemma checkCameraPosition_subscription
  (call : TestCall N) (this : CameraBounds N) :
  subscription (state_of (checkCameraPosition E call this)) = subscription this.
Proof.
  pose proof (apply_test_state E call this) as Hstate.
  unfold checkCameraPosition, bind.
  destruct (apply_test E call this) as [violated this0 | this0];
    cbn in Hstate; subst this0; [ | reflexivity ].
  destruct violated; unfold get, camera_setView, Cartesian3_clone; cbn;
    destruct (objects (viewer this) !! camera_position (viewer this));
    reflexivity.
Qed.

Lemma raiseEvent_subscription
  (ls : list (nat * TestCall N)) (this : CameraBounds N) :
  subscription (state_of (raiseEvent E ls this)) = subscription this.
Proof.
  revert this. induction ls as [ | [token call] rest IH]; intros this.
  - reflexivity.
  - cbn. unfold bind.
    pose proof (checkCameraPosition_subscription call this) as Hcheck.
    destruct (checkCameraPosition E call this) as [[] this1 | this1];
      cbn in Hcheck.
    + rewrite IH. exact Hcheck.
    + exact Hcheck.
Qed.

Lemma frame_subscription (this : CameraBounds N) :
  subscription (state_of (frame E this)) = subscription this.
Proof. apply raiseEvent_subscription. Qed.

Lemma subscription_ok_ext (this this' : CameraBounds N) :
  subscription this' = subscription this ->
  subscription_ok this -> subscription_ok this'.
Proof.
  unfold subscription, subscription_ok. intros Heq.
  injection Heq as Hl Hn Hr Hh. rewrite Hl, Hn, Hh. trivial.
Qed.

Lemma render_subscription
  (motions : list (CameraView N)) (this : CameraBounds N) :
  subscription (render E motions this) = subscription this.
Proof.
  revert this. induction motions as [ | view rest IH]; intros this.
  - reflexivity.
  - cbn [render]. rewrite IH, frame_subscription. reflexivity.
Qed.

(** With one listener subscribed a frame is one call of it. *)
Lemma frame_single
  (token : nat) (call : TestCall N) (this : CameraBounds N) :
  preRender (viewer this) = [(token, call)] ->
  frame E this = checkCameraPosition E call this.
Proof.
  intros Hl. unfold frame. rewrite Hl. cbn. unfold bind, ret.
  destruct (checkCameraPosition E call this) as [[] this1 | this1]; reflexivity.
Qed.

Lemma disable_returns (this : CameraBounds N) :
  exists this',
    disableCameraMovementLimitation this = Normal tt this' /\
    cameraMovementListener this' = None /\
    previousCameraPosition this' = previousCameraPosition this /\
    previousCameraOrientation this' = previousCameraOrientation this /\
    dispatched this' = dispatched this /\
    objects (viewer this') = objects (viewer this) /\
    cameraPose this' = cameraPose this /\
    camera_positionCartographic (viewer this')
    = camera_positionCartographic (viewer this) /\
    preRender (viewer this')
    = match cameraMovementListener this with
      | Some token => removeEventListener token (preRender (viewer this))
      | None => preRender (viewer this)
      end /\
    removerCalls (viewer this')
    = removerCalls (viewer this)
      ++ match cameraMovementListener this with
         | Some token => [token]
         | None => []
         end /\
    preRender_next (viewer this') = preRender_next (viewer this).
Proof.
  unfold disableCameraMovementLimitation, bind, get.
  destruct (cameraMovementListener this) as [token | ] eqn:Hl.
  - eexists. split; [ reflexivity | ]. cbn. rewrite ?Hl. repeat split.
  - eexists. split; [ reflexivity | ]. rewrite ?Hl, app_nil_r. repeat split.
Qed.

Lemma disable_subscription_ok (this : CameraBounds N) :
  subscription_ok this ->
  subscription_ok (state_of (disableCameraMovementLimitation this)) /\
  preRender (viewer (state_of (disableCameraMovementLimitation this))) = [].
Proof.
  intros Hok.
  destruct (disable_returns this)
    as (this' & Hrun & Hnone & _ & _ & _ & _ & _ & _ & Hpre & _).
  rewrite Hrun. cbn. unfold subscription_ok in *. rewrite Hnone.
  assert (preRender (viewer this') = []) as Hempty.
  { rewrite Hpre. destruct (cameraMovementListener this) as [token | ].
    - destruct Hok as [[call ->] _]. cbn. rewrite Nat.eqb_refl. reflexivity.
    - exact Hok. }
  split; exact Hempty.
Qed.

(** An installer on a state with at most one subscription. *)
Lemma limitCamera_installs (call : TestCall N) (this : CameraBounds N) :
  subscription_ok this ->
  exists this' token,
    limitCamera call this = Normal tt this' /\
    preRender (viewer this') = [(token, call)] /\
    cameraMovementListener this' = Some token /\
    previousCameraPosition this' = previousCameraPosition this /\
    previousCameraOrientation this' = previousCameraOrientation this /\
    dispatched this' = dispatched this /\
    objects (viewer this') = objects (viewer this) /\
    cameraPose this' = cameraPose this /\
    camera_positionCartographic (viewer this')
    = camera_positionCartographic (viewer this) /\
    token = preRender_next (viewer this) /\
    preRender_next (viewer this') = S token.
Proof.
  intros Hok.
  destruct (disable_subscription_ok this Hok) as [_ Hempty].
  destruct (disable_returns this)
    as (this1 & Hrun & _ & Hpos & Hor & Hdisp & Hobj & Hpose & Hcarto & _ & _
        & Hnext).
  rewrite Hrun in Hempty. cbn in Hempty.
  unfold limitCamera, bind. rewrite Hrun.
  unfold preRender_addEventListener, modify. cbn.
  eexists. exists (preRender_next (viewer this1)).
  split; [ reflexivity | ]. cbn. rewrite Hempty.
  repeat split; try assumption.
Qed.

Lemma limitCamera_subscription_ok (call : TestCall N) (this : CameraBounds N) :
  subscription_ok this -> subscription_ok (state_of (limitCamera call this)).
Proof.
  intros Hok.
  destruct (limitCamera_installs call this Hok)
    as (this' & token & Hrun & Hpre & Hl & _ & _ & _ & _ & _ & _ & _ & Hnext).
  rewrite Hrun. cbn. unfold subscription_ok. rewrite Hl, Hnext.
  split; [ eauto | lia ].
Qed.

Lemma reachable_subscription_ok (this : CameraBounds N) :
  reachable E this -> subscription_ok this.
Proof.
  induction 1 as [cesiumViewer Hempty | this op Hreach IH].
  - exact Hempty.
  - destruct op; cbn [run].
    + apply limitCamera_subscription_ok, IH.
    + apply limitCamera_subscription_ok, IH.
    + apply disable_subscription_ok, IH.
    + apply (subscription_ok_ext this); [ apply frame_subscription | exact IH ].
    + exact IH.
Qed.

(** An installer on any state. *)
Lemma limitCamera_returns (call : TestCall N) (this : CameraBounds N) :
  exists this' token,
    limitCamera call this = Normal tt this' /\
    cameraMovementListener this' = Some token /\
    last (preRender (viewer this')) = Some (token, call).
Proof.
  destruct (disable_returns this) as (this1 & Hrun & _).
  unfold limitCamera, bind. rewrite Hrun.
  unfold preRender_addEventListener, modify. cbn.
  eexists. eexists. split; [ reflexivity | ]. cbn.
  split; [ reflexivity | apply last_snoc ].
Qed.

(** C5: in every state an instance can be in, at most one listener is
    subscribed to the frame start; an installer ([limitBBOX] and
    [limitEntity] are [limitCamera] with their call) on such a state returns
    with exactly one listener subscribed, the new one, whose token differs
    from the token of the listener subscribed before; and on every later
    frame, whatever the camera does in between, the listeners are still
    that one alone and the frame is one call of the new predicate's check. *)
Theorem one_subscription_at_a_time
  (this : CameraBounds N) (callB : TestCall N) :
  reachable E this ->
  length (preRender (viewer this)) <= 1 /\
  exists this' token,
    limitCamera callB this = Normal tt this' /\
    preRender (viewer this') = [(token, callB)] /\
    cameraMovementListener this' = Some token /\
    (forall tokenA callA,
       In (tokenA, callA) (preRender (viewer this)) -> tokenA <> token) /\
    forall motions : list (CameraView N),
      preRender (viewer (render E motions this')) = [(token, callB)] /\
      frame E (render E motions this')
      = checkCameraPosition E callB (render E motions this').
Proof.
  intros Hreach.
  pose proof (reachable_subscription_ok this Hreach) as Hok.
  split.
  { unfold subscription_ok in Hok.
    destruct (cameraMovementListener this) as [token | ].
    - destruct Hok as [[call ->] _]. cbn. lia.
    - rewrite Hok. cbn. lia. }
  destruct (limitCamera_installs callB this Hok)
    as (this' & token & Hrun & Hpre & Hl & _ & _ & _ & _ & _ & _ & Htoken & _).
  exists this', token. repeat split; try assumption.
  - intros tokenA callA Hin. unfold subscription_ok in Hok.
    destruct (cameraMovementListener this) as [token0 | ].
    + destruct Hok as [[call Hlist] Hlt]. rewrite Hlist in Hin.
      destruct Hin as [Heq | []]. injection Heq as <- _. lia.
    + rewrite Hok in Hin. destruct Hin.
  - pose proof (render_subscription motions this') as Hsub.
    unfold subscription in Hsub. injection Hsub as Hlist _ _ _.
    rewrite Hlist. exact Hpre.
  - apply (frame_single token).
    pose proof (render_subscription motions this') as Hsub.
    unfold subscription in Hsub. injection Hsub as Hlist _ _ _.
    rewrite Hlist. exact Hpre.
Qed.

(** C7, as the code has it: an installer leaves the recorded pose, the
    camera and the events as they are, so the first frame after it is an
    ordinary check against what was recorded before: if the predicate
    reports a violation, [cameraBlocked] is dispatched and the recorded pose
    stays what it was before the installer; if it reports none, the
    camera's pose is recorded and no event is dispatched. *)
Theorem first_check_after_install
  (call : TestCall N) (this : CameraBounds N) :
  subscription_ok this ->
  exists this',
    limitCamera call this = Normal tt this' /\
    previousCameraPosition this' = previousCameraPosition this /\
    previousCameraOrientation this' = previousCameraOrientation this /\
    recordedPose this' = recordedPose this /\
    cameraPose this' = cameraPose this /\
    dispatched this' = dispatched this /\
    frame E this' = checkCameraPosition E call this' /\
    (forall current,
       apply_test E call this' = Normal true this' ->
       objects (viewer this') !! camera_position (viewer this') = Some current ->
       dispatched (state_of (frame E this'))
       = dispatched this ++ ["cameraBlocked"] /\
       previousCameraPosition (state_of (frame E this'))
       = previousCameraPosition this /\
       previousCameraOrientation (state_of (frame E this'))
       = previousCameraOrientation this) /\
    (forall current,
       apply_test E call this' = Normal false this' ->
       objects (viewer this') !! camera_position (viewer this') = Some current ->
       dispatched (state_of (frame E this')) = dispatched this /\
       recordedPose (state_of (frame E this')) = cameraPose this).
Proof.
  intros Hok.
  destruct (limitCamera_installs call this Hok)
    as (this' & token & Hrun & Hpre & Hl & Hpos & Hor & Hdisp & Hobj & Hpose
        & _).
  exists this'.
  pose proof (frame_single token call this' Hpre) as Hframe.
  repeat split; try assumption.
  - unfold recordedPose. rewrite Hpos, Hor. unfold deref. rewrite Hobj.
    reflexivity.
  - rewrite Hframe.
    rewrite (checkCameraPosition_violation E call this' current) by assumption.
    cbn. rewrite Hdisp. reflexivity.
  - rewrite Hframe.
    rewrite (checkCameraPosition_violation E call this' current) by assumption.
    cbn. exact Hpos.
  - rewrite Hframe.
    rewrite (checkCameraPosition_violation E call this' current) by assumption.
    cbn. exact Hor.
  - rewrite Hframe.
    rewrite (checkCameraPosition_in_bounds E call this' current) by assumption.
    cbn. exact Hdisp.
  - rewrite Hframe.
    destruct (record_when_in_bounds_pose E call this' current)
      as (this2 & Hcheck & Hrec & _ & Hcam); try assumption.
    rewrite Hcheck. cbn. rewrite Hrec, <- Hpose, Hcam. reflexivity.
Qed.

(** C8, as the code has it: the installers check nothing.  For all
    arguments, a box with [xmin > xmax] or [ymin > ymax] and a negative
    distance among them, the call returns normally, the instance holds a
    new handle, and the listener just subscribed carries the arguments as
    given. *)
Theorem installers_accept_all_arguments
  (xmin ymin xmax ymax zmax : N) (entity : Entity N) (distance zlimit : N)
  (this : CameraBounds N) :
  (exists this' token,
     limitBBOX xmin ymin xmax ymax zmax this = Normal tt this' /\
     cameraMovementListener this' = Some token /\
     last (preRender (viewer this'))
     = Some (token, CallTestCameraBBOX xmin ymin xmax ymax zmax)) /\
  (exists this' token,
     limitEntity entity distance zlimit this = Normal tt this' /\
     cameraMovementListener this' = Some token /\
     last (preRender (viewer this'))
     = Some (token, CallTestCameraDistanceFromEntity entity distance zlimit)).
Proof. split; apply limitCamera_returns. Qed.

(** C9: [disableCameraMovementLimitation] always returns; a second call
    right after it returns too and changes nothing, in particular it calls
    no remover and dispatches no event; with no subscription active the
    first call already changes nothing. *)
Theorem disable_idempotent (this : CameraBounds N) :
  exists this',
    disableCameraMovementLimitation this = Normal tt this' /\
    disableCameraMovementLimitation this' = Normal tt this' /\
    cameraMovementListener this' = None /\
    dispatched this' = dispatched this /\
    removerCalls (viewer this')
    = removerCalls (viewer this)
      ++ match cameraMovementListener this with
         | Some token => [token]
         | None => []
         end /\
    (cameraMovementListener this = None -> this' = this).
Proof.
  destruct (disable_returns this)
    as (this' & Hrun & Hnone & _ & _ & Hdisp & _ & _ & _ & _ & Hcalls & _).
  exists this'. repeat split; try assumption.
  - unfold disableCameraMovementLimitation, bind, get. rewrite Hnone.
    reflexivity.
  - intros Hl. unfold disableCameraMovementLimitation, bind, get in Hrun.
    rewrite Hl in Hrun. injection Hrun as <-. reflexivity.
Qed.

End Subscriptions.

(** ** The class on the chart engine *)

Lemma chartEngine_snaps : setView_snaps chartEngine.
Proof. intros v dest orient. split; reflexivity. Qed.

(** Scenario 3 of the specification: frames at P1 (valid), P2 (valid) and
    P3 (invalid); after the third the camera is at P2 and [cameraBlocked]
    has been dispatched once in all. *)
Example scenario3 :
  let this :=
    render chartEngine
      [chartView (-75) 35 5000; chartView (-74) 36 6000; chartView (-69) 35 5000]
      (state_of (limitCamera scenarioBox
         (new_CameraBounds (chartViewer (-75) 35 5000)))) in
  cameraPose this
  = (Some (view_position (chartView (-74) 36 6000)),
     Some (view_orientation (chartView (-74) 36 6000))) /\
  dispatched this = ["cameraBlocked"].
Proof. vm_compute. split; reflexivity. Qed.

Lemma testCameraBBOX_in_bounds_iff_witness :
  exists outside : bool,
    testCameraBBOX (-80)%float 30%float (-70)%float 40%float 10000%float
      (new_CameraBounds (chartViewer (-75) 35 5000))
    = Normal outside (new_CameraBounds (chartViewer (-75) 35 5000)) /\
    outside = false.
Proof.
  destruct (testCameraBBOX_in_bounds_iff
              (-80)%float 30%float (-70)%float 40%float 10000%float
              (new_CameraBounds (chartViewer (-75) 35 5000))
              float_StrictExcludes)
    as (outside & Hrun & Hin & _).
  exists outside. split; [ exact Hrun | ].
  apply Hin. vm_compute. repeat split.
Defined.

Lemma revert_on_violation_witness :
  exists this',
    checkCameraPosition chartEngine scenarioBox strayed = Normal tt this' /\
    cameraPose this'
    = (Some (view_position (chartView (-75) 35 5000)),
       Some (view_orientation (chartView (-75) 35 5000))) /\
    dispatched this' = dispatched strayed ++ ["cameraBlocked"] /\
    previousCameraPosition this' = Some 2%positive /\
    previousCameraOrientation this'
    = Some (view_orientation (chartView (-75) 35 5000)) /\
    recordedPose this'
    = (Some (view_position (chartView (-75) 35 5000)),
       Some (view_orientation (chartView (-75) 35 5000))).
Proof.
  apply (revert_on_violation chartEngine scenarioBox strayed 2%positive
           (view_position (chartView (-75) 35 5000))
           (view_position (chartView (-69) 35 5000))
           (view_orientation (chartView (-75) 35 5000))
           chartEngine_snaps);
    vm_compute; reflexivity.
Defined.

Lemma record_when_in_bounds_witness :
  exists this',
    checkCameraPosition chartEngine scenarioBox
      (state_of (limitCamera scenarioBox
         (new_CameraBounds (chartViewer (-75) 35 5000))))
    = Normal tt this' /\
    recordedPose this'
    = (Some (view_position (chartView (-75) 35 5000)),
       Some (view_orientation (chartView (-75) 35 5000))) /\
    dispatched this' = [].
Proof.
  destruct (record_when_in_bounds chartEngine scenarioBox
              (state_of (limitCamera scenarioBox
                 (new_CameraBounds (chartViewer (-75) 35 5000))))
              (view_position (chartView (-75) 35 5000)))
    as (this' & Hrun & Hrec & _ & _ & _ & Hdisp & _);
    [ vm_compute; reflexivity | vm_compute; reflexivity | ].
  exists this'. repeat split; assumption.
Defined.

Lemma violation_with_nothing_recorded_witness :
  exists this',
    checkCameraPosition chartEngine scenarioBox startedOutside
    = Normal tt this' /\
    previousCameraPosition this' = None /\
    previousCameraOrientation this' = None /\
    recordedPose this' = (None, None) /\
    dispatched this' = dispatched startedOutside ++ ["cameraBlocked"].
Proof.
  apply (violation_with_nothing_recorded chartEngine scenarioBox startedOutside
           (view_position (chartView (-69) 35 5000)));
    vm_compute; reflexivity.
Defined.

Lemma startedOutside_reachable : reachable chartEngine startedOutside.
Proof.
  apply (reachable_step chartEngine
           (new_CameraBounds (chartViewer (-69) 35 5000))
           (OpLimitBBOX (-80)%float 30%float (-70)%float 40%float 10000%float)).
  apply reachable_new. reflexivity.
Defined.

Lemma one_subscription_at_a_time_witness :
  length (preRender (viewer startedOutside)) <= 1 /\
  exists this' token,
    limitCamera
      (CallTestCameraBBOX 0%float 0%float 10%float 10%float 10000%float)
      startedOutside
    = Normal tt this' /\
    preRender (viewer this')
    = [(token,
        CallTestCameraBBOX 0%float 0%float 10%float 10%float 10000%float)] /\
    cameraMovementListener this' = Some token.
Proof.
  destruct (one_subscription_at_a_time chartEngine startedOutside
              (CallTestCameraBBOX 0%float 0%float 10%float 10%float 10000%float)
              startedOutside_reachable)
    as (Hone & this' & token & Hrun & Hpre & Hl & _).
  split; [ exact Hone | ].
  exists this', token. repeat split; assumption.
Defined.

Lemma insideRecorded_subscription_ok : subscription_ok insideRecorded.
Proof. vm_compute. split; [ eexists; reflexivity | lia ]. Defined.

Lemma first_check_after_install_witness :
  exists this',
    limitCamera
      (CallTestCameraBBOX 0%float 0%float 10%float 10%float 10000%float)
      insideRecorded
    = Normal tt this' /\
    recordedPose this' = recordedPose insideRecorded /\
    dispatched this' = dispatched insideRecorded.
Proof.
  destruct (first_check_after_install chartEngine
              (CallTestCameraBBOX 0%float 0%float 10%float 10%float 10000%float)
              insideRecorded insideRecorded_subscription_ok)
    as (this' & Hrun & _ & _ & Hrec & _ & Hdisp & _).
  exists this'. repeat split; assumption.
Defined.

(** C6 refuted: an instance is created with the camera east of the box and
    the box is installed.  On the first frame the predicate reports a
    violation with nothing recorded; the callback hands the null
    destination and orientation to [setView] and dispatches
    [cameraBlocked]; afterwards still nothing is recorded, so the pose has
    not been seeded from the camera. *)
Lemma first_violation_is_not_seeded :
  let after := state_of (frame chartEngine startedOutside) in
  recordedPose startedOutside = (None, None) /\
  apply_test chartEngine scenarioBox startedOutside
  = Normal true startedOutside /\
  frame chartEngine startedOutside
  = (camera_setView chartEngine None None >> dispatchEvent "cameraBlocked")
      startedOutside /\
  dispatched after = ["cameraBlocked"] /\
  recordedPose after = (None, None) /\
  recordedPose after <> cameraPose startedOutside.
Proof. vm_compute. repeat split. discriminate. Qed.

(** C7 refuted: the box is installed with the camera inside and a frame
    records that pose; the limitation is disabled, the camera moves to
    longitude -60, and a second box (0, 0, 10, 10, 10000) is installed.  The
    first frame after this installation reports a violation, dispatches
    [cameraBlocked] and puts the camera back to the pose recorded under the
    first box; the pose of the camera at the installation is not
    recorded. *)
Lemma first_check_after_install_can_block :
  let freed := state_of (disableCameraMovementLimitation insideRecorded) in
  let moved := state_of (moveCamera (chartView (-60) 35 5000) freed) in
  let installed :=
    state_of (limitBBOX 0%float 0%float 10%float 10%float 10000%float moved) in
  let after := state_of (frame chartEngine installed) in
  dispatched installed = [] /\
  cameraPose installed
  = (Some (view_position (chartView (-60) 35 5000)),
     Some (view_orientation (chartView (-60) 35 5000))) /\
  dispatched after = ["cameraBlocked"] /\
  cameraPose after
  = (Some (view_position (chartView (-75) 35 5000)),
     Some (view_orientation (chartView (-75) 35 5000))) /\
  recordedPose after = recordedPose insideRecorded /\
  recordedPose after <> cameraPose installed.
Proof. vm_compute. repeat split. discriminate. Qed.

(** C8 refuted: a box with [xmin = 10 > xmax = -10] and an entity limit with
    distance -1 are both installed by a normal return; the listener
    subscribed carries the arguments unchanged. *)
Lemma malformed_arguments_are_installed :
  let this := new_CameraBounds (chartViewer (-75) 35 5000) in
  let entity := EntityPosition (Some (mkCartesian3 0%float 0%float 0%float)) in
  num_lt (-10)%float 10%float = true /\
  num_lt (-1)%float 0%float = true /\
  (exists this',
     limitBBOX 10%float 0%float (-10)%float 5%float 100%float this
     = Normal tt this' /\
     preRender (viewer this')
     = [(0, CallTestCameraBBOX 10%float 0%float (-10)%float 5%float 100%float)]) /\
  (exists this',
     limitEntity entity (-1)%float 100%float this = Normal tt this' /\
     preRender (viewer this')
     = [(0, CallTestCameraDistanceFromEntity entity (-1)%float 100%float)]).
Proof.
  vm_compute. repeat split; eexists; split; reflexivity.
Qed.

(** ** The entity predicate on the unit sphere *)

Section UnitSphere.
Local Open Scope R_scope.

Lemma magnitude_cameraPoint : magnitude cameraPoint = 1.
Proof.
  unfold magnitude, cameraPoint. cbn.
  replace (1 * 1 + 0 * 0 + 0 * 0) with 1 by lra. apply sqrt_1.
Qed.

Lemma magnitude_entityPoint : magnitude entityPoint = 1.
Proof.
  unfold magnitude, entityPoint. cbn.
  replace (0 * 0 + 1 * 1 + 0 * 0) with 1 by lra. apply sqrt_1.
Qed.

Lemma sphere_scale_cameraPoint (c : option (Cartographic R)) :
  scaleToGeodeticSurface (sphere 1) cameraPoint c = Some cameraPoint.
Proof.
  cbn [sphere scaleToGeodeticSurface]. rewrite magnitude_cameraPoint.
  destruct (Req_dec_T 1 0) as [Heq | _]; [ lra | ].
  unfold cameraPoint. cbn. do 2 f_equal; lra.
Qed.

Lemma sphere_scale_entityPoint (c : option (Cartographic R)) :
  scaleToGeodeticSurface (sphere 1) entityPoint c = Some entityPoint.
Proof.
  cbn [sphere scaleToGeodeticSurface]. rewrite magnitude_entityPoint.
  destruct (Req_dec_T 1 0) as [Heq | _]; [ lra | ].
  unfold entityPoint. cbn. do 2 f_equal; lra.
Qed.

(** The straight line between the two points: the chord, of length √2. *)
Lemma distance_camera_entity :
  Cartesian3_distance cameraPoint entityPoint = sqrt 2.
Proof.
  unfold Cartesian3_distance, cameraPoint, entityPoint. cbn.
  f_equal. lra.
Qed.

Lemma sqrt_2_below : sqrt 2 < 3 / 2.
Proof.
  replace (3 / 2) with (sqrt ((3 / 2) * (3 / 2))).
  - apply sqrt_lt_1; lra.
  - apply sqrt_square. lra.
Qed.

(** The way along the surface between them: a quarter of a great circle. *)
Lemma surfaceDistance_camera_entity :
  surfaceDistance 1 cameraPoint entityPoint = PI / 2.
Proof.
  unfold surfaceDistance, cameraPoint, entityPoint. cbn.
  replace ((1 * 0 + 0 * 1 + 0 * 0) / (1 * 1)) with 0 by lra.
  rewrite acos_0. lra.
Qed.

Lemma sphere_camera_object :
  objects (viewer (new_CameraBounds sphereViewer))
    !! camera_position (viewer (new_CameraBounds sphereViewer))
  = Some cameraPoint.
Proof. apply lookup_singleton_eq. Qed.

Lemma testCameraDistanceFromEntity_out_of_bounds_iff_witness :
  exists outside : bool,
    testCameraDistanceFromEntity (sphereEngine 1)
      (EntityPosition (Some entityPoint)) (3 / 2) 1
      (new_CameraBounds sphereViewer)
    = Normal outside (new_CameraBounds sphereViewer) /\
    (outside = true <->
       num_lt (3 / 2) (Cartesian3_distance cameraPoint entityPoint) = true \/
       num_lt 1
         (height (camera_positionCartographic
                    (viewer (new_CameraBounds sphereViewer))))
       = true).
Proof.
  apply (proj1 (testCameraDistanceFromEntity_out_of_bounds_iff (sphereEngine 1)
                  (EntityPosition (Some entityPoint)) (3 / 2) 1
                  (new_CameraBounds sphereViewer))
           (sphere 1) cameraPoint entityPoint cameraPoint entityPoint).
  - right. reflexivity.
  - reflexivity.
  - exact sphere_camera_object.
  - apply sphere_scale_cameraPoint.
  - apply sphere_scale_entityPoint.
Defined.

(** C3 refuted: on the unit sphere the camera sits on the surface at
    (1, 0, 0) and the entity at (0, 1, 0); the maximum horizontal distance is
    3/2 and the maximum height 1.  Both points are their own projections.
    The way between them along the surface is π/2 > 3/2, so the predicate
    as specified reports "out of bounds"; the code measures the chord,
    √2 < 3/2, and reports "in bounds". *)
Lemma chord_is_not_surface_distance :
  let this := new_CameraBounds sphereViewer in
  scaleToGeodeticSurface (sphere 1) (mkCartesian3 1 0 0)
    (cartesianToCartographic (sphere 1) (mkCartesian3 1 0 0))
  = Some (mkCartesian3 1 0 0) /\
  scaleToGeodeticSurface (sphere 1) (mkCartesian3 0 1 0)
    (cartesianToCartographic (sphere 1) (mkCartesian3 0 1 0))
  = Some (mkCartesian3 0 1 0) /\
  spec_entity_out_of_bounds 1 (mkCartesian3 1 0 0) (mkCartesian3 0 1 0)
    (height (camera_positionCartographic (viewer this))) (3 / 2) 1
  = true /\
  testCameraDistanceFromEntity (sphereEngine 1)
    (EntityPosition (Some (mkCartesian3 0 1 0))) (3 / 2) 1 this
  = Normal false this.
Proof.
  cbv zeta. fold cameraPoint. fold entityPoint.
  split; [ apply sphere_scale_cameraPoint | ].
  split; [ apply sphere_scale_entityPoint | ].
  split.
  - unfold spec_entity_out_of_bounds.
    rewrite surfaceDistance_camera_entity. unfold Rltb.
    pose proof PI2_3_2 as Hpi.
    destruct (Rlt_dec (3 / 2) (PI / 2)) as [_ | Hn]; [ reflexivity | lra ].
  - rewrite (testCameraDistanceFromEntity_returns (sphereEngine 1)
               (EntityPosition (Some entityPoint)) (3 / 2) 1
               (new_CameraBounds sphereViewer) (sphere 1)
               cameraPoint entityPoint cameraPoint entityPoint
               (or_intror eq_refl) eq_refl sphere_camera_object
               (sphere_scale_cameraPoint _) (sphere_scale_entityPoint _)).
    f_equal. rewrite distance_camera_entity. unfold num_gt. cbn. unfold Rltb.
    pose proof sqrt_2_below as Hs.
    destruct (Rlt_dec (3 / 2) (sqrt 2)) as [Hlt | _]; [ lra | ].
    destruct (Rlt_dec 1 0) as [Hlt | _]; [ lra | reflexivity ].
Qed.

End UnitSphere.

(** ** What the predicates read, and when they throw *)

Section Reads.
Context {N : Type} `{JSNumber N} (E : Engine N).

Ltac step :=
  unfold bind, get, modify, ret, throw, onEllipsoid; cbn.

Lemma apply_test_ext
  (call : TestCall N) (this1 this2 : CameraBounds N) :
  objects (viewer this1) !! camera_position (viewer this1)
  = objects (viewer this2) !! camera_position (viewer this2) ->
  camera_positionCartographic (viewer this1)
  = camera_positionCartographic (viewer this2) ->
  returned (apply_test E call this1) = returned (apply_test E call this2).
Proof.
  intros Hpos Hcarto. destruct call as [xmin ymin xmax ymax zmax | entity d zl].
  - cbn. unfold testCameraBBOX. step. rewrite Hcarto. reflexivity.
  - cbn. unfold testCameraDistanceFromEntity. step.
    destruct entity as [[p | ] | [p | ] | ]; step; try reflexivity;
      destruct (scene_globe E) as [el | ]; step; try reflexivity;
      rewrite Hpos;
      destruct (objects (viewer this2) !! camera_position (viewer this2));
      step; try reflexivity;
      repeat match goal with
      | |- context [match ?o with Some _ => _ | None => _ end] =>
          destruct o; step; try reflexivity
      end;
      rewrite Hcarto; reflexivity.
Qed.

(** X1: either predicate reads the camera's position and cartographic position
    and nothing else of the state: on two states that agree on these it
    returns the same answer, or throws on both; what is recorded, what is
    subscribed and how the camera is oriented make no difference. *)
Theorem predicates_read_camera_position_only
  (call : TestCall N) (this1 this2 : CameraBounds N) :
  objects (viewer this1) !! camera_position (viewer this1)
  = objects (viewer this2) !! camera_position (viewer this2) ->
  camera_positionCartographic (viewer this1)
  = camera_positionCartographic (viewer this2) ->
  returned (apply_test E call this1) = returned (apply_test E call this2) /\
  (forall b : bool,
     apply_test E call this1 = Normal b this1 <->
     apply_test E call this2 = Normal b this2).
Proof.
  intros Hpos Hcarto.
  pose proof (apply_test_ext call this1 this2 Hpos Hcarto) as Hext.
  split; [ exact Hext | ].
  pose proof (apply_test_state E call this1) as H1.
  pose proof (apply_test_state E call this2) as H2.
  intros b.
  destruct (apply_test E call this1) as [b1 s1 | s1],
    (apply_test E call this2) as [b2 s2 | s2];
    cbn in *; subst; try discriminate.
  - injection Hext as ->. split; intros [= ->]; reflexivity.
  - split; discriminate.
Qed.

(** X2: the entity predicate throws, leaving the state as it is, when the
    entity's position is not defined or the viewer has no globe; the frame
    callback with that predicate then throws too, before the camera, the
    record or the events are touched. *)
Theorem entity_predicate_throws_when_unresolved
  (entity : Entity N) (distance zlimit : N) (this : CameraBounds N) :
  entity = EntityBare \/ entity = EntityPrimitive None \/
  entity = EntityPosition None \/ scene_globe E = None ->
  testCameraDistanceFromEntity E entity distance zlimit this = Throw this /\
  checkCameraPosition E
    (CallTestCameraDistanceFromEntity entity distance zlimit) this
  = Throw this.
Proof.
  intros Hbad.
  assert (testCameraDistanceFromEntity E entity distance zlimit this
          = Throw this) as Hthrow.
  { unfold testCameraDistanceFromEntity. step.
    destruct Hbad as [-> | [-> | [-> | Hglobe]]]; step; try reflexivity.
    1, 2: destruct (scene_globe E); step; try reflexivity;
      destruct (objects (viewer this) !! camera_position (viewer this));
      step; try reflexivity;
      repeat match goal with
      | |- context [match ?o with Some _ => _ | None => _ end] =>
          destruct o; step; try reflexivity
      end.
    rewrite Hglobe. destruct entity as [p | p | ]; reflexivity. }
  split; [ exact Hthrow | ].
  unfold checkCameraPosition, bind. cbn [apply_test]. rewrite Hthrow.
  reflexivity.
Qed.

End Reads.

(** ** More laws of numbers *)

Lemma SFleb_trans (a b c : spec_float) :
  SFleb a b = true -> SFleb b c = true -> SFleb a c = true.
Proof.
  unfold SFleb.
  destruct a as [sa | sa | | sa ma ea], b as [sb | sb | | sb mb eb],
    c as [sc | sc | | sc mc ec];
    cbn; try discriminate; try reflexivity;
    repeat match goal with s : bool |- _ => destruct s end;
    cbn; try discriminate; try reflexivity.
  all: change (Pos.compare_cont Eq ma mb) with (ma ?= mb)%positive;
    change (Pos.compare_cont Eq mb mc) with (mb ?= mc)%positive;
    change (Pos.compare_cont Eq ma mc) with (ma ?= mc)%positive;
    destruct (Z.compare_spec ea eb), (Z.compare_spec eb ec),
      (Z.compare_spec ea ec); try lia; cbn; try discriminate;
    try reflexivity;
    destruct (Pos.compare_spec ma mb), (Pos.compare_spec mb mc),
      (Pos.compare_spec ma mc); cbn; try discriminate; try reflexivity; lia.
Qed.

Lemma float_LeTransitive : LeTransitive float.
Proof. intros a b c. cbn. rewrite !leb_spec. apply SFleb_trans. Qed.

Lemma real_LeTransitive : LeTransitive R.
Proof.
  intros a b c. cbn. unfold Rleb.
  destruct (Rle_dec a b); [ | discriminate ].
  destruct (Rle_dec b c); [ | discriminate ].
  destruct (Rle_dec a c); [ reflexivity | lra ].
Qed.

(** A comparison with a NaN operand is false. *)
Lemma SFleb_nan (a b : spec_float) :
  SFeqb a a = false -> SFleb a b = false /\ SFleb b a = false.
Proof.
  unfold SFeqb, SFleb.
  destruct a as [sa | sa | | sa ma ea].
  - cbn. discriminate.
  - destruct sa; cbn; discriminate.
  - intros _. split; [ reflexivity | destruct b; reflexivity ].
  - cbn. rewrite Z.compare_refl.
    change (Pos.compare_cont Eq ma ma) with (ma ?= ma)%positive.
    rewrite Pos.compare_refl. destruct sa; cbn; discriminate.
Qed.

Lemma float_le_nan (a b : float) :
  is_nan a = true -> PrimFloat.leb a b = false /\ PrimFloat.leb b a = false.
Proof.
  unfold is_nan. rewrite FloatAxioms.eqb_spec, !leb_spec. intros Hnan.
  apply SFleb_nan.
  destruct (SFeqb (Prim2SF a) (Prim2SF a)); [ discriminate | reflexivity ].
Qed.

(** ** The bounding box at its edges *)

Section Box.
Context {N : Type} `{JSNumber N}.

(** The value [testCameraBBOX] returns. *)
Lemma testCameraBBOX_returns
  (xmin ymin xmax ymax zmax : N) (this : CameraBounds N) :
  testCameraBBOX xmin ymin xmax ymax zmax this
  = Normal
      (negb
         (num_le xmin
            (Math_toDegrees (longitude (camera_positionCartographic (viewer this))))
          && num_le
               (Math_toDegrees
                  (longitude (camera_positionCartographic (viewer this))))
               xmax
          && num_le ymin
               (Math_toDegrees
                  (latitude (camera_positionCartographic (viewer this))))
          && num_le
               (Math_toDegrees
                  (latitude (camera_positionCartographic (viewer this))))
               ymax
          && num_le (height (camera_positionCartographic (viewer this))) zmax))
      this.
Proof. reflexivity. Qed.

(** X3: a box whose minimum exceeds its maximum in longitude or in latitude
    admits no camera: the predicate reports "out of bounds" at every
    pose. *)
Theorem malformed_box_blocks_everywhere
  (xmin ymin xmax ymax zmax : N) (this : CameraBounds N) :
  StrictExcludes N -> LeTransitive N ->
  num_lt xmax xmin = true \/ num_lt ymax ymin = true ->
  testCameraBBOX xmin ymin xmax ymax zmax this = Normal true this.
Proof.
  intros Hstrict Htrans Hbad.
  rewrite testCameraBBOX_returns. f_equal.
  apply negb_true_iff. apply not_true_is_false.
  rewrite !andb_true_iff. intros [[[[Hx1 Hx2] Hy1] Hy2] _].
  destruct Hbad as [Hbad | Hbad]; apply Hstrict in Hbad.
  - rewrite (Htrans _ _ _ Hx1 Hx2) in Hbad. discriminate.
  - rewrite (Htrans _ _ _ Hy1 Hy2) in Hbad. discriminate.
Qed.

(** X4: widening a box never blocks a camera the narrower box admits: a pose
    in bounds of a box is in bounds of every box that contains it. *)
Theorem wider_box_admits_more
  (xmin ymin xmax ymax zmax xmin' ymin' xmax' ymax' zmax' : N)
  (this : CameraBounds N) :
  LeTransitive N ->
  num_le xmin' xmin = true -> num_le xmax xmax' = true ->
  num_le ymin' ymin = true -> num_le ymax ymax' = true ->
  num_le zmax zmax' = true ->
  testCameraBBOX xmin ymin xmax ymax zmax this = Normal false this ->
  testCameraBBOX xmin' ymin' xmax' ymax' zmax' this = Normal false this.
Proof.
  intros Htrans Hx1 Hx2 Hy1 Hy2 Hz.
  rewrite !testCameraBBOX_returns. intros Hin.
  injection Hin as Hin. f_equal.
  apply negb_false_iff in Hin. apply negb_false_iff.
  rewrite !andb_true_iff in *.
  destruct Hin as [[[[Ha Hb] Hc] Hd] He].
  repeat split; eauto.
Qed.

End Box.

(** X5: a NaN among the camera's longitude or latitude in degrees, its height
    or the five bounds makes the predicate report "out of bounds". *)
Theorem nan_is_out_of_bounds
  (xmin ymin xmax ymax zmax : float) (this : CameraBounds float) :
  let position := camera_positionCartographic (viewer this) in
  is_nan (Math_toDegrees (longitude position)) = true \/
  is_nan (Math_toDegrees (latitude position)) = true \/
  is_nan (height position) = true \/
  is_nan xmin = true \/ is_nan xmax = true \/
  is_nan ymin = true \/ is_nan ymax = true \/ is_nan zmax = true ->
  testCameraBBOX xmin ymin xmax ymax zmax this = Normal true this.
Proof.
  cbv zeta. intros Hnan. rewrite testCameraBBOX_returns. f_equal.
  apply negb_true_iff. cbn [num_le float_JSNumber].
  destruct Hnan as [Hn | [Hn | [Hn | [Hn | [Hn | [Hn | [Hn | Hn]]]]]]];
    match type of Hn with
    | is_nan ?a = true =>
        repeat match goal with
        | |- context [PrimFloat.leb a ?b] =>
            rewrite (proj1 (float_le_nan a b Hn))
        | |- context [PrimFloat.leb ?b a] =>
            rewrite (proj2 (float_le_nan a b Hn))
        end
    end;
    rewrite ?andb_false_r; reflexivity.
Qed.

(** ** Runs of frames *)

Section RunsOfFrames.
Context {N : Type} `{JSNumber N} (E : Engine N).

Lemma returned_apply_test
  (call : TestCall N) (this : CameraBounds N) (b : bool) :
  returned (apply_test E call this) = Some b ->
  apply_test E call this = Normal b this.
Proof.
  pose proof (apply_test_state E call this) as Hstate.
  destruct (apply_test E call this) as [b' s | s]; cbn in *; subst s;
    [ | discriminate ].
  intros [= ->]. reflexivity.
Qed.

Lemma thrown_apply_test (call : TestCall N) (this : CameraBounds N) :
  returned (apply_test E call this) = None ->
  apply_test E call this = Throw this.
Proof.
  pose proof (apply_test_state E call this) as Hstate.
  destruct (apply_test E call this) as [b' s | s]; cbn in *; subst s;
    [ discriminate | reflexivity ].
Qed.

(** The answer for a view does not depend on the state it is asked on. *)
Lemma verdict_ext
  (call : TestCall N) (this1 this2 : CameraBounds N) (view : CameraView N) :
  verdict E call this1 view = verdict E call this2 view.
Proof.
  unfold verdict. apply apply_test_ext; cbn.
  - rewrite !lookup_insert_eq. reflexivity.
  - reflexivity.
Qed.

Lemma blockedTicks_ext
  (call : TestCall N) (this1 this2 : CameraBounds N) (ticks : list (Tick N)) :
  blockedTicks E call this1 ticks = blockedTicks E call this2 ticks.
Proof.
  revert call. induction ticks as [ | tick rest IH]; intros call;
    [ reflexivity | ].
  cbn. rewrite (verdict_ext _ this1 this2 (tick_view tick)), IH. reflexivity.
Qed.

Lemma lastInBounds_ext
  (call : TestCall N) (this1 this2 : CameraBounds N)
  (start : option (Cartesian3 N) * option (Orientation N))
  (ticks : list (Tick N)) :
  lastInBounds E call this1 start ticks
  = lastInBounds E call this2 start ticks.
Proof.
  revert call start. induction ticks as [ | tick rest IH]; intros call start;
    [ reflexivity | ].
  cbn. rewrite (verdict_ext _ this1 this2 (tick_view tick)), !IH. reflexivity.
Qed.

(** The callback keeps the recorded position apart from the camera's. *)
Lemma checkCameraPosition_record_ok
  (call : TestCall N) (this : CameraBounds N) :
  record_ok this -> record_ok (state_of (checkCameraPosition E call this)).
Proof.
  intros Hok.
  pose proof (apply_test_state E call this) as Hstate.
  unfold checkCameraPosition, bind.
  destruct (apply_test E call this) as [violated this0 | this0];
    cbn in Hstate; subst this0; [ | exact Hok ].
  destruct violated; unfold get, camera_setView, Cartesian3_clone; cbn;
    destruct (objects (viewer this) !! camera_position (viewer this))
      as [p | ] eqn:Hcam; cbn; try exact Hok.
  - unfold record_ok in *. cbn.
    destruct (previousCameraPosition this) as [l | ]; [ | exact I ].
    destruct Hok as [Hne Hsome]. split; [ exact Hne | ].
    rewrite lookup_insert_ne by (intros Heq; apply Hne; symmetry; exact Heq).
    exact Hsome.
  - unfold record_ok. cbn. split.
    + intros Heq. pose proof (fresh_object (objects (viewer this))) as Hfresh.
      rewrite Heq in Hfresh. congruence.
    + rewrite lookup_insert_eq. eauto.
  - exact I.
Qed.

Lemma raiseEvent_record_ok
  (ls : list (nat * TestCall N)) (this : CameraBounds N) :
  record_ok this -> record_ok (state_of (raiseEvent E ls this)).
Proof.
  revert this. induction ls as [ | [token call] rest IH]; intros this Hok.
  - exact Hok.
  - cbn. unfold bind.
    pose proof (checkCameraPosition_record_ok call this Hok) as Hcheck.
    destruct (checkCameraPosition E call this) as [[] this1 | this1];
      cbn in Hcheck.
    + apply IH. exact Hcheck.
    + exact Hcheck.
Qed.

Lemma moveCamera_record_ok (view : CameraView N) (this : CameraBounds N) :
  record_ok this -> record_ok (state_of (moveCamera view this)).
Proof.
  unfold record_ok. cbn.
  destruct (previousCameraPosition this) as [l | ]; [ | trivial ].
  intros [Hne Hsome]. split; [ exact Hne | ].
  rewrite lookup_insert_ne by (intros Heq; apply Hne; symmetry; exact Heq).
  exact Hsome.
Qed.

Lemma disable_record_ok (this : CameraBounds N) :
  record_ok this ->
  record_ok (state_of (disableCameraMovementLimitation this)).
Proof.
  unfold disableCameraMovementLimitation, bind, get, record_ok.
  destruct (cameraMovementListener this); cbn; trivial.
Qed.

Lemma limitCamera_record_ok (call : TestCall N) (this : CameraBounds N) :
  record_ok this -> record_ok (state_of (limitCamera call this)).
Proof.
  unfold limitCamera, disableCameraMovementLimitation, bind, get, record_ok.
  destruct (cameraMovementListener this); cbn; trivial.
Qed.

(** X6: in every state an instance can be in, the recorded position is an
    object of its own: never the camera's position object, which the engine
    overwrites in place, and always present in the store. *)
Theorem record_never_aliases_camera (this : CameraBounds N) :
  reachable E this ->
  match previousCameraPosition this with
  | Some l =>
      l <> camera_position (viewer this) /\
      is_Some (objects (viewer this) !! l)
  | None => True
  end.
Proof.
  induction 1 as [cesiumViewer Hempty | this op Hreach IH].
  - exact I.
  - destruct op; cbn [run].
    + apply limitCamera_record_ok, IH.
    + apply limitCamera_record_ok, IH.
    + apply disable_record_ok, IH.
    + apply raiseEvent_record_ok, IH.
    + apply moveCamera_record_ok, IH.
Qed.

(** The camera after the callback on a violation with a pose recorded. *)
Lemma revert_pose
  (call : TestCall N) (this : CameraBounds N)
  (recorded : loc) (pos0 current : Cartesian3 N) (orient0 : Orientation N) :
  setView_snaps E ->
  apply_test E call this = Normal true this ->
  objects (viewer this) !! camera_position (viewer this) = Some current ->
  previousCameraPosition this = Some recorded ->
  objects (viewer this) !! recorded = Some pos0 ->
  previousCameraOrientation this = Some orient0 ->
  exists this',
    checkCameraPosition E call this = Normal tt this' /\
    cameraPose (state_of (checkCameraPosition E call this))
    = (Some pos0, Some orient0).
Proof.
  intros Hsnap Htest Hcam Hprev Hobj Horient.
  eexists. split.
  { apply (checkCameraPosition_violation E call this current Htest Hcam). }
  rewrite (checkCameraPosition_violation E call this current Htest Hcam).
  rewrite Hprev, Horient. cbn. rewrite Hobj.
  destruct (Hsnap
    (mkCameraView current (camera_positionCartographic (viewer this))
       (mkOrientation (camera_heading (viewer this))
          (camera_pitch (viewer this)) (camera_roll (viewer this))))
    pos0 orient0) as [Hp Ho].
  unfold cameraPose. cbn. rewrite Hp, Ho, Orientation_eta.
  rewrite lookup_insert_eq. reflexivity.
Qed.

(** One frame after a motion of the camera, with one listener subscribed. *)
Lemma frame_after_motion
  (token : nat) (call : TestCall N) (this : CameraBounds N)
  (view : CameraView N) :
  preRender (viewer this) = [(token, call)] ->
  record_ok this ->
  let after := state_of (frame E (state_of (moveCamera view this))) in
  preRender (viewer after) = [(token, call)] /\
  record_ok after /\
  dispatched after
  = dispatched this
    ++ match verdict E call this view with
       | Some true => ["cameraBlocked"]
       | _ => []
       end /\
  recordedPose after
  = match verdict E call this view with
    | Some false => poseOf view
    | _ => recordedPose this
    end.
Proof.
  intros Hpre Hok. cbv zeta.
  set (moved := state_of (moveCamera view this)).
  assert (preRender (viewer moved) = [(token, call)]) as Hpre' by exact Hpre.
  assert (record_ok moved) as Hok' by (apply moveCamera_record_ok; exact Hok).
  assert (objects (viewer moved) !! camera_position (viewer moved)
          = Some (view_position view)) as Hcam by apply lookup_insert_eq.
  assert (recordedPose moved = recordedPose this) as Hrec.
  { unfold recordedPose, record_ok in *. cbn.
    destruct (previousCameraPosition this) as [l | ]; [ | reflexivity ].
    destruct Hok as [Hne _]. cbn.
    rewrite lookup_insert_ne by (intros Heq; apply Hne; symmetry; exact Heq).
    reflexivity. }
  split.
  { pose proof (frame_subscription E moved) as Hsub.
    unfold subscription in Hsub. injection Hsub as Hl _ _ _.
    rewrite Hl. exact Hpre'. }
  split.
  { apply raiseEvent_record_ok. exact Hok'. }
  rewrite (frame_single E token call moved Hpre').
  unfold verdict. fold moved.
  destruct (returned (apply_test E call moved)) as [[ | ] | ] eqn:Hret.
  - apply returned_apply_test in Hret.
    rewrite (checkCameraPosition_violation E call moved _ Hret Hcam).
    cbn - [moved]. split; [ reflexivity | ].
    rewrite <- Hrec. unfold recordedPose. cbn - [moved].
    unfold record_ok in Hok'.
    destruct (previousCameraPosition moved) as [l | ]; [ | reflexivity ].
    destruct Hok' as [Hne _]. cbn - [moved].
    rewrite lookup_insert_ne by (intros Heq; apply Hne; symmetry; exact Heq).
    reflexivity.
  - apply returned_apply_test in Hret.
    rewrite (checkCameraPosition_in_bounds E call moved _ Hret Hcam).
    cbn - [moved]. split; [ rewrite app_nil_r; reflexivity | ].
    unfold recordedPose, poseOf. cbn - [moved].
    rewrite lookup_insert_eq. cbn. rewrite Orientation_eta. reflexivity.
  - apply thrown_apply_test in Hret.
    unfold checkCameraPosition, bind. rewrite Hret. cbn - [moved].
    split; [ rewrite app_nil_r; reflexivity | exact Hrec ].
Qed.

(** The state after a tick, with one listener subscribed. *)
Lemma between_single
  (token : nat) (call : TestCall N) (this : CameraBounds N) (tick : Tick N) :
  preRender (viewer this) = [(token, call)] ->
  record_ok this ->
  exists changed,
    state_of (between tick this)
    = state_of (moveCamera (tick_view tick) changed) /\
    preRender (viewer changed) = [(token, callAfter tick call)] /\
    record_ok changed /\
    dispatched changed = dispatched this /\
    recordedPose changed = recordedPose this.
Proof.
  intros Hpre Hok. unfold between, callAfter, bind.
  destruct (tick_entity tick) as [entity | ].
  - eexists. split; [ reflexivity | ]. cbn. rewrite Hpre.
    repeat split; try reflexivity. exact Hok.
  - exists this. repeat split; assumption.
Qed.

(** X7: a run of frames with one listener subscribed, each frame after a
    tick in which the entity may have changed and the camera has moved:
    [cameraBlocked] has been dispatched once for every frame on which the
    predicate, reading the entity and the camera as they are at that frame,
    reports a violation, and nothing else has been dispatched; the pose
    recorded at the end is the pose of the camera at the last frame without
    violation, or what was recorded before the run if there is none; a
    frame on which the predicate throws counts for neither; the listener is
    still the only one. *)
Theorem run_of_frames
  (token : nat) (call : TestCall N) (this : CameraBounds N)
  (ticks : list (Tick N)) :
  preRender (viewer this) = [(token, call)] ->
  record_ok this ->
  dispatched (renderScene E ticks this)
  = dispatched this ++ repeat "cameraBlocked" (blockedTicks E call this ticks) /\
  recordedPose (renderScene E ticks this)
  = lastInBounds E call this (recordedPose this) ticks /\
  preRender (viewer (renderScene E ticks this))
  = [(token, callAtEnd call ticks)] /\
  record_ok (renderScene E ticks this).
Proof.
  revert call this. induction ticks as [ | tick rest IH];
    intros call this Hpre Hok.
  - cbn. rewrite app_nil_r. repeat split; assumption.
  - destruct (between_single token call this tick Hpre Hok)
      as (changed & Hbetween & Hpre0 & Hok0 & Hdisp0 & Hrec0).
    destruct (frame_after_motion token (callAfter tick call) changed
                (tick_view tick) Hpre0 Hok0)
      as (Hpre1 & Hok1 & Hdisp1 & Hrec1).
    rewrite <- Hbetween in Hpre1, Hok1, Hdisp1, Hrec1.
    rewrite (verdict_ext _ changed this) in Hdisp1, Hrec1.
    rewrite Hdisp0 in Hdisp1. rewrite Hrec0 in Hrec1.
    cbn [renderScene].
    destruct (IH _ _ Hpre1 Hok1) as (Hdisp & Hrec & Hpre2 & Hok2).
    set (after := state_of (frame E (state_of (between tick this)))) in *.
    rewrite (blockedTicks_ext _ after this) in Hdisp.
    rewrite (lastInBounds_ext _ after this) in Hrec.
    repeat split; try assumption.
    + rewrite Hdisp, Hdisp1. cbn [blockedTicks].
      destruct (verdict E (callAfter tick call) this (tick_view tick))
        as [[ | ] | ]; rewrite <- app_assoc; reflexivity.
    + rewrite Hrec, Hrec1. cbn [lastInBounds].
      destruct (verdict E (callAfter tick call) this (tick_view tick))
        as [[ | ] | ]; reflexivity.
Qed.

(** X8: what the camera shows after a frame, with one listener subscribed, a
    pose recorded and an engine whose [setView] shows what it is given: the
    recorded pose if the predicate reports a violation for the view the
    camera moved to, and that view if it reports none or throws. *)
Theorem camera_after_frame
  (token : nat) (call : TestCall N) (this : CameraBounds N)
  (view : CameraView N) (p : Cartesian3 N) (o : Orientation N) :
  setView_snaps E ->
  preRender (viewer this) = [(token, call)] ->
  record_ok this ->
  recordedPose this = (Some p, Some o) ->
  cameraPose (state_of (frame E (state_of (moveCamera view this))))
  = match verdict E call this view with
    | Some true => (Some p, Some o)
    | _ => poseOf view
    end.
Proof.
  intros Hsnap Hpre Hok Hrec.
  set (moved := state_of (moveCamera view this)).
  assert (preRender (viewer moved) = [(token, call)]) as Hpre' by exact Hpre.
  assert (objects (viewer moved) !! camera_position (viewer moved)
          = Some (view_position view)) as Hcam by apply lookup_insert_eq.
  assert (cameraPose moved = poseOf view) as Hpose.
  { unfold cameraPose, poseOf. cbn - [moved]. rewrite Hcam.
    cbn. rewrite Orientation_eta. reflexivity. }
  rewrite (frame_single E token call moved Hpre').
  unfold verdict. fold moved.
  destruct (returned (apply_test E call moved)) as [[ | ] | ] eqn:Hret.
  - apply returned_apply_test in Hret.
    unfold recordedPose in Hrec.
    destruct (previousCameraPosition this) as [l | ] eqn:Hl;
      [ | discriminate ].
    destruct (previousCameraOrientation this) as [o' | ] eqn:Ho;
      [ | discriminate ].
    cbn in Hrec. injection Hrec as Hp ->.
    unfold record_ok in Hok. rewrite Hl in Hok. destruct Hok as [Hne _].
    assert (objects (viewer moved) !! l = Some p) as Hp'.
    { cbn. rewrite lookup_insert_ne
        by (intros Heq; apply Hne; symmetry; exact Heq).
      exact Hp. }
    destruct (revert_pose call moved l p (view_position view) o Hsnap Hret
                Hcam Hl Hp' Ho)
      as (this' & Hcheck & Hshown).
    exact Hshown.
  - apply returned_apply_test in Hret.
    destruct (record_when_in_bounds_pose E call moved _ Hret Hcam)
      as (this' & Hcheck & _ & Hsame & _).
    rewrite Hcheck. cbn [state_of]. rewrite Hsame. exact Hpose.
  - apply thrown_apply_test in Hret.
    unfold checkCameraPosition, bind. rewrite Hret. exact Hpose.
Qed.

(** Without a listener a frame does nothing. *)
Lemma frame_idle (this : CameraBounds N) :
  preRender (viewer this) = [] -> frame E this = Normal tt this.
Proof. intros Hpre. unfold frame. rewrite Hpre. reflexivity. Qed.

(** X9: once the limitation is disabled the camera is free: through any run of
    frames it shows the view it last moved to, nothing is dispatched, and
    what was recorded is kept as it was. *)
Theorem released_camera_moves_freely
  (this : CameraBounds N) (motions : list (CameraView N))
  (view : CameraView N) :
  subscription_ok this ->
  let released := state_of (disableCameraMovementLimitation this) in
  let after := render E (motions ++ [view]) released in
  cameraPose after = poseOf view /\
  dispatched after = dispatched this /\
  previousCameraPosition after = previousCameraPosition this /\
  previousCameraOrientation after = previousCameraOrientation this /\
  cameraMovementListener after = None /\
  preRender (viewer after) = [].
Proof.
  intros Hok. cbv zeta.
  destruct (disable_subscription_ok this Hok) as [_ Hempty].
  destruct (disable_returns this)
    as (released & Hrun & Hnone & Hpos & Hor & Hdisp & _).
  rewrite Hrun in *. cbn [state_of] in *.
  rewrite <- Hpos, <- Hor, <- Hdisp. clear Hpos Hor Hdisp Hrun Hok.
  revert released Hnone Hempty.
  induction motions as [ | first rest IH]; intros released Hnone Hempty.
  - cbn [app render].
    rewrite frame_idle by exact Hempty. cbn [state_of].
    unfold cameraPose, poseOf. cbn.
    rewrite lookup_insert_eq, Orientation_eta. repeat split; assumption.
  - cbn [app render].
    rewrite frame_idle by exact Hempty. cbn [state_of].
    apply (IH (state_of (moveCamera first released))); assumption.
Qed.

(** X10: [init] forgets the handle without calling it: on an instance with a
    listener subscribed it clears the record and the handle but leaves the
    listener subscribed; [disableCameraMovementLimitation] then removes
    nothing, frames still run the old check, and an installer adds a second
    listener next to it. *)
Theorem init_leaves_listener_subscribed
  (token : nat) (call call' : TestCall N) (this : CameraBounds N) :
  preRender (viewer this) = [(token, call)] ->
  let reset := state_of (init this) in
  cameraMovementListener reset = None /\
  recordedPose reset = (None, None) /\
  disableCameraMovementLimitation reset = Normal tt reset /\
  preRender (viewer reset) = [(token, call)] /\
  frame E reset = checkCameraPosition E call reset /\
  exists installed,
    limitCamera call' reset = Normal tt installed /\
    preRender (viewer installed)
    = [(token, call); (preRender_next (viewer this), call')].
Proof.
  intros Hpre. cbv zeta. cbn [init modify state_of].
  repeat split.
  - exact Hpre.
  - apply (frame_single E token). exact Hpre.
  - eexists. split; [ reflexivity | ]. cbn. rewrite Hpre. reflexivity.
Qed.

End RunsOfFrames.

(** ** The added properties on the chart engine *)

Lemma insideRecorded_reachable : reachable chartEngine insideRecorded.
Proof.
  apply (reachable_step chartEngine _ OpFrame).
  apply (reachable_step chartEngine
           (new_CameraBounds (chartViewer (-75) 35 5000))
           (OpLimitBBOX (-80)%float 30%float (-70)%float 40%float 10000%float)).
  apply reachable_new. reflexivity.
Defined.

Lemma insideRecorded_record_ok : record_ok insideRecorded.
Proof.
  unfold record_ok. vm_compute.
  split; [ intros Heq; discriminate Heq | eexists; reflexivity ].
Defined.

Lemma predicates_read_camera_position_only_witness :
  returned (apply_test chartEngine scenarioBox insideRecorded)
  = returned (apply_test chartEngine scenarioBox
                (new_CameraBounds (chartViewer (-75) 35 5000))).
Proof.
  apply (predicates_read_camera_position_only chartEngine scenarioBox
           insideRecorded (new_CameraBounds (chartViewer (-75) 35 5000)));
    vm_compute; reflexivity.
Defined.

Lemma entity_predicate_throws_when_unresolved_witness :
  checkCameraPosition chartEngine
    (CallTestCameraDistanceFromEntity EntityBare 500%float 100%float)
    insideRecorded
  = Throw insideRecorded.
Proof.
  apply (entity_predicate_throws_when_unresolved chartEngine EntityBare
           500%float 100%float insideRecorded).
  left. reflexivity.
Defined.

Lemma malformed_box_blocks_everywhere_witness :
  testCameraBBOX 10%float 0%float (-10)%float 5%float 100%float insideRecorded
  = Normal true insideRecorded.
Proof.
  apply (malformed_box_blocks_everywhere
           10%float 0%float (-10)%float 5%float 100%float insideRecorded
           float_StrictExcludes float_LeTransitive).
  left. reflexivity.
Defined.

Lemma wider_box_admits_more_witness :
  testCameraBBOX (-90)%float 20%float (-60)%float 50%float 20000%float
    insideRecorded
  = Normal false insideRecorded.
Proof.
  apply (wider_box_admits_more
           (-80)%float 30%float (-70)%float 40%float 10000%float
           (-90)%float 20%float (-60)%float 50%float 20000%float
           insideRecorded float_LeTransitive);
    vm_compute; reflexivity.
Defined.

Lemma nan_is_out_of_bounds_witness :
  testCameraBBOX nan 30%float (-70)%float 40%float 10000%float insideRecorded
  = Normal true insideRecorded.
Proof.
  apply (nan_is_out_of_bounds nan 30%float (-70)%float 40%float 10000%float
           insideRecorded).
  do 3 right. left. reflexivity.
Defined.

Lemma record_never_aliases_camera_witness :
  match previousCameraPosition insideRecorded with
  | Some l =>
      l <> camera_position (viewer insideRecorded) /\
      is_Some (objects (viewer insideRecorded) !! l)
  | None => True
  end.
Proof.
  apply (record_never_aliases_camera chartEngine insideRecorded
           insideRecorded_reachable).
Defined.

Lemma camera_after_frame_witness :
  cameraPose
    (state_of (frame chartEngine
       (state_of (moveCamera (chartView (-69) 35 5000) insideRecorded))))
  = match verdict chartEngine scenarioBox insideRecorded
            (chartView (-69) 35 5000) with
    | Some true =>
        (Some (view_position (chartView (-75) 35 5000)),
         Some (view_orientation (chartView (-75) 35 5000)))
    | _ => poseOf (chartView (-69) 35 5000)
    end.
Proof.
  apply (camera_after_frame chartEngine 0 scenarioBox insideRecorded
           (chartView (-69) 35 5000)
           (view_position (chartView (-75) 35 5000))
           (view_orientation (chartView (-75) 35 5000))
           chartEngine_snaps eq_refl insideRecorded_record_ok).
  vm_compute. reflexivity.
Defined.

Lemma released_camera_moves_freely_witness :
  cameraPose
    (render chartEngine ([chartView (-60) 35 5000] ++ [chartView 5 5 90000])
       (state_of (disableCameraMovementLimitation insideRecorded)))
  = poseOf (chartView 5 5 90000).
Proof.
  apply (released_camera_moves_freely chartEngine insideRecorded
           [chartView (-60) 35 5000] (chartView 5 5 90000)
           insideRecorded_subscription_ok).
Defined.

Lemma init_leaves_listener_subscribed_witness :
  disableCameraMovementLimitation (state_of (init insideRecorded))
  = Normal tt (state_of (init insideRecorded)) /\
  preRender (viewer (state_of (init insideRecorded))) = [(0, scenarioBox)].
Proof.
  destruct (init_leaves_listener_subscribed chartEngine 0 scenarioBox
              scenarioBox insideRecorded eq_refl)
    as (_ & _ & Hdisable & Hpre & _).
  split; assumption.
Defined.

(** On the unit sphere the camera at (1, 0, 0) is within 3/2 of the entity
    at (0, 1, 0) as the code measures it. *)
Lemma unit_sphere_quarter_in_bounds :
  testCameraDistanceFromEntity (sphereEngine 1)
    (EntityPosition (Some entityPoint)) (3 / 2)%R 1%R
    (new_CameraBounds sphereViewer)
  = Normal false (new_CameraBounds sphereViewer).
Proof.
  rewrite (testCameraDistanceFromEntity_returns (sphereEngine 1)
             (EntityPosition (Some entityPoint)) (3 / 2)%R 1%R
             (new_CameraBounds sphereViewer) (sphere 1)
             cameraPoint entityPoint cameraPoint entityPoint
             (or_intror eq_refl) eq_refl sphere_camera_object
             (sphere_scale_cameraPoint _) (sphere_scale_entityPoint _)).
  f_equal. rewrite distance_camera_entity. unfold num_gt. cbn. unfold Rltb.
  pose proof sqrt_2_below as Hs.
  destruct (Rlt_dec (3 / 2) (sqrt 2)) as [Hlt | _]; [ lra | ].
  destruct (Rlt_dec 1 0) as [Hlt | _]; [ lra | reflexivity ].
Qed.

(** ** Looser limits, and installing then disabling *)

Lemma SFleb_ltb_trans (a b c : spec_float) :
  SFleb a b = true -> SFltb b c = true -> SFltb a c = true.
Proof.
  unfold SFleb, SFltb.
  destruct a as [sa | sa | | sa ma ea], b as [sb | sb | | sb mb eb],
    c as [sc | sc | | sc mc ec];
    cbn; try discriminate; try reflexivity;
    repeat match goal with s : bool |- _ => destruct s end;
    cbn; try discriminate; try reflexivity.
  all: change (Pos.compare_cont Eq ma mb) with (ma ?= mb)%positive;
    change (Pos.compare_cont Eq mb mc) with (mb ?= mc)%positive;
    change (Pos.compare_cont Eq ma mc) with (ma ?= mc)%positive;
    destruct (Z.compare_spec ea eb), (Z.compare_spec eb ec),
      (Z.compare_spec ea ec); try lia; cbn; try discriminate;
    try reflexivity;
    destruct (Pos.compare_spec ma mb), (Pos.compare_spec mb mc),
      (Pos.compare_spec ma mc); cbn; try discriminate; try reflexivity; lia.
Qed.

Lemma float_LeLtTransitive : LeLtTransitive float.
Proof.
  intros a b c. cbn. rewrite leb_spec, !ltb_spec. apply SFleb_ltb_trans.
Qed.

Lemma real_LeLtTransitive : LeLtTransitive R.
Proof.
  intros a b c. cbn. unfold Rleb, Rltb.
  destruct (Rle_dec a b); [ | discriminate ].
  destruct (Rlt_dec b c); [ | discriminate ].
  destruct (Rlt_dec a c); [ reflexivity | lra ].
Qed.

Section Looser.
Context {N : Type} `{JSNumber N} (E : Engine N).

Ltac step :=
  unfold bind, get, modify, ret, throw, onEllipsoid; cbn.

(** When the entity predicate returns, it has measured a distance and read
    the camera's height. *)
Lemma testCameraDistanceFromEntity_inv
  (entity : Entity N) (distance zlimit : N) (this : CameraBounds N)
  (answer : bool) :
  testCameraDistanceFromEntity E entity distance zlimit this
  = Normal answer this ->
  exists distCamera : N,
    (forall distance' zlimit' : N,
       testCameraDistanceFromEntity E entity distance' zlimit' this
       = Normal
           (num_gt distCamera distance'
            || num_gt (height (camera_positionCartographic (viewer this)))
                 zlimit')
           this) /\
    answer
    = (num_gt distCamera distance
       || num_gt (height (camera_positionCartographic (viewer this))) zlimit).
Proof.
  unfold testCameraDistanceFromEntity. step.
  destruct entity as [[p | ] | [p | ] | ]; step; try discriminate;
    destruct (scene_globe E) as [el | ]; step; try discriminate;
    destruct (objects (viewer this) !! camera_position (viewer this));
    step; try discriminate;
    repeat match goal with
    | |- context [match ?o with Some _ => _ | None => _ end] =>
        destruct o; step; try discriminate
    end;
    intros [= <-]; eexists; split; reflexivity.
Qed.

(** X11: raising the maximum distance or the maximum height never blocks a
    camera the tighter limits admit. *)
Theorem looser_entity_limits_admit_more
  (entity : Entity N) (distance zlimit distance' zlimit' : N)
  (this : CameraBounds N) :
  LeLtTransitive N ->
  num_le distance distance' = true ->
  num_le zlimit zlimit' = true ->
  testCameraDistanceFromEntity E entity distance zlimit this
  = Normal false this ->
  testCameraDistanceFromEntity E entity distance' zlimit' this
  = Normal false this.
Proof.
  intros Htrans Hd Hz Hin.
  destruct (testCameraDistanceFromEntity_inv entity distance zlimit this false
              Hin)
    as (distCamera & Hany & Hanswer).
  rewrite (Hany distance' zlimit'). f_equal.
  symmetry in Hanswer. apply orb_false_iff in Hanswer.
  destruct Hanswer as [Hdist Hheight]. unfold num_gt in *.
  apply orb_false_iff. split; apply not_true_is_false; intros Hlt.
  - rewrite (Htrans _ _ _ Hd Hlt) in Hdist. discriminate.
  - rewrite (Htrans _ _ _ Hz Hlt) in Hheight. discriminate.
Qed.

(** X12: installing a limitation and disabling it again leaves nothing
    subscribed and no handle; the record, the camera and the events are as
    they were before the two calls, and the remover of the listener just
    installed has been called once. *)
Theorem install_then_disable
  (call : TestCall N) (this : CameraBounds N) :
  subscription_ok this ->
  exists installed released token,
    limitCamera call this = Normal tt installed /\
    cameraMovementListener installed = Some token /\
    disableCameraMovementLimitation installed = Normal tt released /\
    preRender (viewer released) = [] /\
    cameraMovementListener released = None /\
    recordedPose released = recordedPose this /\
    cameraPose released = cameraPose this /\
    dispatched released = dispatched this /\
    removerCalls (viewer released) = removerCalls (viewer installed) ++ [token].
Proof.
  intros Hok.
  destruct (limitCamera_installs call this Hok)
    as (installed & token & Hrun & Hpre & Hl & Hpos & Hor & Hdisp & Hobj
        & Hpose & _).
  destruct (disable_returns installed)
    as (released & Hrun' & Hnone & Hpos' & Hor' & Hdisp' & Hobj' & Hpose'
        & _ & Hpre' & Hcalls & _).
  exists installed, released, token.
  rewrite Hl in Hpre', Hcalls. rewrite Hpre in Hpre'. cbn in Hpre'.
  rewrite Nat.eqb_refl in Hpre'.
  repeat split; try assumption.
  - unfold recordedPose, deref. rewrite Hpos', Hor', Hobj', Hpos, Hor, Hobj.
    reflexivity.
  - congruence.
  - congruence.
Qed.

End Looser.

Lemma looser_entity_limits_admit_more_witness :
  testCameraDistanceFromEntity (sphereEngine 1)
    (EntityPosition (Some entityPoint)) 2%R 3%R
    (new_CameraBounds sphereViewer)
  = Normal false (new_CameraBounds sphereViewer).
Proof.
  apply (looser_entity_limits_admit_more (sphereEngine 1)
           (EntityPosition (Some entityPoint)) (3 / 2)%R 1%R 2%R 3%R
           (new_CameraBounds sphereViewer) real_LeLtTransitive).
  - cbn. unfold Rleb. destruct (Rle_dec (3 / 2) 2); [ reflexivity | lra ].
  - cbn. unfold Rleb. destruct (Rle_dec 1 3); [ reflexivity | lra ].
  - exact unit_sphere_quarter_in_bounds.
Defined.

Lemma install_then_disable_witness :
  exists installed released token,
    limitCamera scenarioBox insideRecorded = Normal tt installed /\
    cameraMovementListener installed = Some token /\
    disableCameraMovementLimitation installed = Normal tt released /\
    preRender (viewer released) = [].
Proof.
  destruct (install_then_disable scenarioBox insideRecorded
              insideRecorded_subscription_ok)
    as (installed & released & token & H1 & H2 & H3 & H4 & _).
  exists installed, released, token. repeat split; assumption.
Defined.

(** ** A run of frames with a moving entity *)

Section MovingEntity.
Local Open Scope R_scope.

Lemma distance_camera_camera :
  Cartesian3_distance cameraPoint cameraPoint = 0.
Proof.
  unfold Cartesian3_distance, cameraPoint. cbn.
  replace ((1 - 1) * (1 - 1) + (0 - 0) * (0 - 0) + (0 - 0) * (0 - 0)) with 0
    by lra.
  apply sqrt_0.
Qed.

Lemma sqrt_2_above : 1 < sqrt 2.
Proof. rewrite <- sqrt_1 at 1. apply sqrt_lt_1; lra. Qed.

(** With the entity a quarter of the equator away the camera is out of
    bounds of distance 1. *)
Lemma verdict_entity_away (this : CameraBounds R) :
  verdict (sphereEngine 1)
    (CallTestCameraDistanceFromEntity (EntityPosition (Some entityPoint)) 1 1)
    this sphereView
  = Some true.
Proof.
  unfold verdict. cbn [apply_test].
  rewrite (testCameraDistanceFromEntity_returns (sphereEngine 1)
             (EntityPosition (Some entityPoint)) 1 1
             (state_of (moveCamera sphereView this)) (sphere 1)
             cameraPoint entityPoint cameraPoint entityPoint
             (or_intror eq_refl) eq_refl (lookup_insert_eq _ _ _)
             (sphere_scale_cameraPoint _) (sphere_scale_entityPoint _)).
  cbn [returned]. f_equal. rewrite distance_camera_entity.
  unfold num_gt. cbn. unfold Rltb.
  pose proof sqrt_2_above as Hs.
  destruct (Rlt_dec 1 (sqrt 2)) as [_ | Hn]; [ reflexivity | lra ].
Qed.

(** With the entity where the camera is, the camera is in bounds. *)
Lemma verdict_entity_here (this : CameraBounds R) :
  verdict (sphereEngine 1)
    (CallTestCameraDistanceFromEntity (EntityPosition (Some cameraPoint)) 1 1)
    this sphereView
  = Some false.
Proof.
  unfold verdict. cbn [apply_test].
  rewrite (testCameraDistanceFromEntity_returns (sphereEngine 1)
             (EntityPosition (Some cameraPoint)) 1 1
             (state_of (moveCamera sphereView this)) (sphere 1)
             cameraPoint cameraPoint cameraPoint cameraPoint
             (or_intror eq_refl) eq_refl (lookup_insert_eq _ _ _)
             (sphere_scale_cameraPoint _) (sphere_scale_cameraPoint _)).
  cbn [returned]. f_equal. rewrite distance_camera_camera.
  unfold num_gt. cbn. unfold Rltb.
  destruct (Rlt_dec 1 0) as [Hlt | _]; [ lra | reflexivity ].
Qed.

(** Two frames with the camera at rest on the unit sphere: on the first the
    entity is a quarter of the equator away and the frame is blocked; then
    the entity moves to where the camera is, and the second frame records
    the camera's pose. *)
Lemma run_of_frames_witness :
  let ticks :=
    [mkTick None sphereView;
     mkTick (Some (EntityPosition (Some cameraPoint))) sphereView] in
  dispatched (renderScene (sphereEngine 1) ticks sphereLimited)
  = ["cameraBlocked"] /\
  recordedPose (renderScene (sphereEngine 1) ticks sphereLimited)
  = poseOf sphereView.
Proof.
  cbv zeta.
  destruct (run_of_frames (sphereEngine 1) 0%nat
              (CallTestCameraDistanceFromEntity
                 (EntityPosition (Some entityPoint)) 1 1)
              sphereLimited
              [mkTick None sphereView;
               mkTick (Some (EntityPosition (Some cameraPoint))) sphereView]
              eq_refl I)
    as (Hdisp & Hrec & _).
  cbn [blockedTicks lastInBounds callAfter tick_entity tick_view retarget]
    in Hdisp, Hrec.
  rewrite verdict_entity_away, verdict_entity_here in Hdisp, Hrec.
  split; [ exact Hdisp | exact Hrec ].
Defined.

End MovingEntity.
